(** * go-epub: the package document and the resource registry

    A shallow embedding of [pkg.go] and [epub.go]: the package document
    ([Pkg], its meta entries, creators and identifiers), the per-class
    media maps filled by [addMedia], the section list filled by
    [addSection], and the cover manager [SetCover].

    Go values are modelled as follows.
    - [string] is a byte string: Rocq's [string] (one [ascii] per byte).
    - [int] is [Z] with the 64-bit wrap-around [wrapInt] written out where
      the code adds.
    - [map[string]string] is stdpp's [gmap string string]; [len] is [size].
    - slices are lists; [append] is [++].
    - a Go result [(string, error)] is a pair with an [option] error. *)

From Stdlib Require Import ZArith Lia Ascii String List.
From Stdlib Require Import Decimal DecimalString DecimalPos DecimalN DecimalZ.
From stdpp Require Import base decidable option list gmap strings.

Local Open Scope string_scope.
Local Open Scope list_scope.
Local Open Scope Z_scope.

(** stdpp keeps [simpl] from unfolding string concatenation; the proofs
    below compute with it. *)
#[local] Arguments String.append !s1 s2 : simpl nomatch.

(** ** Go standard library functions used by the package *)

Module Go.

(** [int] on the 64-bit platforms the package is built for. *)
Definition maxInt : Z := 2 ^ 63 - 1.

Definition wrapInt (z : Z) : Z := (z + 2 ^ 63) mod 2 ^ 64 - 2 ^ 63.

(** [len] of a slice or a map, as an [int]. *)
Definition len_list {A} (l : list A) : Z := Z.of_nat (List.length l).

Fixpoint zeros (n : nat) : string :=
  match n with
  | O => ""
  | S n' => String "0" (zeros n')
  end.

(** Left-pad the digit string [s] with zeros up to [w] digits. *)
Definition pad0 (w : nat) (s : string) : string :=
  zeros (w - String.length s) +:+ s.

(** Decimal digits of a natural number given as a non-negative [Z]. *)
Definition digits (z : Z) : string :=
  NilEmpty.string_of_uint (N.to_uint (Z.to_N z)).

(** [fmt.Sprintf("%d", z)]. *)
Definition fmt_d (z : Z) : string :=
  if z <? 0 then "-" +:+ digits (- z) else digits z.

(** [fmt.Sprintf("%04d", z)]: the width counts the sign. *)
Definition fmt_04d (z : Z) : string :=
  if z <? 0 then "-" +:+ pad0 3 (digits (- z)) else pad0 4 (digits z).

Definition is_slash (c : ascii) : bool := Ascii.eqb c "/".

Definition is_empty (s : string) : bool :=
  match s with
  | EmptyString => true
  | String _ _ => false
  end.

(** The path elements of [s]: the pieces between the slashes. *)
Fixpoint split_slash (s : string) : list string :=
  match s with
  | EmptyString => [ "" ]
  | String c s' =>
      if is_slash c then "" :: split_slash s'
      else match split_slash s' with
           | e :: es => String c e :: es
           | [] => [ String c "" ]
           end
  end.

Fixpoint has_slash (s : string) : bool :=
  match s with
  | EmptyString => false
  | String c s' => is_slash c || has_slash s'
  end.

(** [s] without its trailing slashes. *)
Fixpoint strip_trailing_slashes (s : string) : string :=
  match s with
  | EmptyString => ""
  | String c s' =>
      let r := strip_trailing_slashes s' in
      if is_empty r && is_slash c then "" else String c r
  end.

(** [filepath.Base] with [/] as the separator: the last element of the
    path once trailing slashes are gone; ["."] for the empty path and
    ["/"] for a path of slashes only. *)
Definition Base (p : string) : string :=
  if is_empty p then "."
  else
    let e := List.last (split_slash (strip_trailing_slashes p)) "" in
    if is_empty e then "/" else e.

(** [filepath.Ext]: the suffix of the last element of the path that
    starts at its last dot; empty when that element has no dot. *)
Fixpoint Ext (p : string) : string :=
  match p with
  | EmptyString => ""
  | String c p' =>
      let r := Ext p' in
      if has_slash p' then r
      else if negb (is_empty r) then r
      else if Ascii.eqb c "." then p
      else ""
  end.

Definition byte (c : ascii) : N := N_of_ascii c.

Definition in_range (lo hi : N) (c : ascii) : bool :=
  ((lo <=? byte c) && (byte c <=? hi))%N.

Definition cont (c : ascii) : bool := in_range 128 191 c.

(** [utf8.ValidString]: well-formed UTF-8 (no overlong forms, no
    surrogates, nothing above U+10FFFF). *)
Fixpoint ValidString (s : string) : bool :=
  match s with
  | EmptyString => true
  | String c0 t =>
      if (byte c0 <? 128)%N then ValidString t
      else if in_range 194 223 c0 then
        match t with
        | String c1 t1 => cont c1 && ValidString t1
        | _ => false
        end
      else if in_range 224 239 c0 then
        match t with
        | String c1 (String c2 t2) =>
            (if (byte c0 =? 224)%N then in_range 160 191 c1
             else if (byte c0 =? 237)%N then in_range 128 159 c1
             else cont c1)
            && cont c2 && ValidString t2
        | _ => false
        end
      else if in_range 240 244 c0 then
        match t with
        | String c1 (String c2 (String c3 t3)) =>
            (if (byte c0 =? 240)%N then in_range 144 191 c1
             else if (byte c0 =? 244)%N then in_range 128 143 c1
             else cont c1)
            && cont c2 && cont c3 && ValidString t3
        | _ => false
        end
      else false
  end.

Definition bad_element (e : string) : bool :=
  is_empty e || String.eqb e "." || String.eqb e "..".

(** [fs.ValidPath]: valid UTF-8 and either ["."] or slash-separated
    elements none of which is empty, ["."] or [".."]. *)
Definition ValidPath (name : string) : bool :=
  ValidString name
  && (String.eqb name "."
      || forallb (fun e => negb (bad_element e)) (split_slash name)).

Fixpoint join_slash (es : list string) : string :=
  match es with
  | [] => ""
  | [ e ] => e
  | e :: es' => e +:+ "/" +:+ join_slash es'
  end.

(** One element of the path met by [path.Clean]; [st] holds the elements
    kept so far, last first.  A [..] removes the element before it when
    that is a real element; on a path that is not rooted it is kept when
    there is nothing to remove. *)
Definition clean_step (rooted : bool) (st : list string) (e : string)
  : list string :=
  if is_empty e || String.eqb e "." then st
  else if String.eqb e ".." then
    match st with
    | top :: st' =>
        if String.eqb top ".." then e :: st else st'
    | [] => if rooted then st else [ e ]
    end
  else e :: st.

(** [path.Clean]: the shortest equivalent path. *)
Definition Clean (p : string) : string :=
  match p with
  | EmptyString => "."
  | String c _ =>
      let rooted := is_slash c in
      let st := fold_left (clean_step rooted) (split_slash p) [] in
      let out := (if rooted then "/" else "") +:+ join_slash (rev st) in
      if is_empty out then "." else out
  end.

(** [path.Join]: the non-empty elements joined by slashes, cleaned. *)
Definition Join (elem : list string) : string :=
  let parts := List.filter (fun e => negb (is_empty e)) elem in
  match parts with
  | [] => ""
  | _ => Clean (join_slash parts)
  end.

Inductive arg : Type :=
| Int (z : Z)
| Str (s : string).

(** [fmt.Sprintf] for the verbs the package uses: [%s], [%d] and
    [%04d].  The package calls it with its own format constants and
    arguments of the matching kinds; anything else in a format is copied
    as it stands. *)
Fixpoint Sprintf (format : string) (args : list arg) : string :=
  match format with
  | EmptyString => ""
  | String c r =>
      if negb (Ascii.eqb c "%") then String c (Sprintf r args)
      else
        match r, args with
        | String v r1, Str s :: rest =>
            if Ascii.eqb v "s" then s +:+ Sprintf r1 rest
            else String c (Sprintf r args)
        | String v r1, Int z :: rest =>
            if Ascii.eqb v "d" then fmt_d z +:+ Sprintf r1 rest
            else
              match r1 with
              | String v1 (String v2 r3) =>
                  if Ascii.eqb v "0" && Ascii.eqb v1 "4" && Ascii.eqb v2 "d"
                  then fmt_04d z +:+ Sprintf r3 rest
                  else String c (Sprintf r args)
              | _ => String c (Sprintf r args)
              end
        | _, _ => String c (Sprintf r args)
        end
  end.

(** [filepath.ToSlash] with [/] as the separator: the path as it is. *)
Definition ToSlash (path : string) : string := path.

End Go.


(** ** pkg.go: the package document *)

Definition SchemeMARCRelators : string := "marc:relators".
Definition SchemeONIXCodeList5 : string := "onix:codelist5".
Definition SchemeXSDString : string := "xsd:string".

Definition PropertyRole : string := "role".
Definition PropertyIdentifierType : string := "identifier-type".
Definition PropertyModified : string := "dcterms:modified".

Definition PropertyRoleAuthor : string := "aut".
Definition PropertyRoleTranslator : string := "trl".
Definition PropertyIdentifierTypeUUID : string := "uuid".

Definition pkgCreatorID : string := "creator".
Definition pkgPublisherID : string := "publisher".
Definition pkgIdentifierID : string := "pub-id".
Definition xmlnsDc : string := "http://purl.org/dc/elements/1.1/".

(** [<dc:creator>], e.g. the author. *)
Record PkgCreator : Type := mkPkgCreator {
  creator_ID : string;
  creator_Data : string
}.

(** [<dc:contributor>], e.g. the generating program. *)
Record PkgContributor : Type := mkPkgContributor {
  contributor_ID : string;
  contributor_Data : string
}.

(** [<dc:identifier>], where the unique identifier is stored. *)
Record PkgIdentifier : Type := mkPkgIdentifier {
  identifier_ID : string;
  identifier_Data : string
}.

(** [<item>] elements, one per file stored in the EPUB. *)
Record PkgItem : Type := mkPkgItem {
  item_ID : string;
  item_Href : string;
  item_MediaType : string;
  item_Properties : string
}.

(** [<itemref>] elements, which define the reading order. *)
Record PkgItemref : Type := mkPkgItemref {
  Idref : string
}.

(** The [<meta>] element. *)
Record PkgMeta : Type := mkPkgMeta {
  Refines : string;
  Property : string;
  Scheme : string;
  meta_ID : string;
  meta_Data : string;
  Name : string;
  Content : string
}.

(** The [<metadata>] element. *)
Record PkgMetadata : Type := mkPkgMetadata {
  XmlnsDc : string;
  Identifier : list PkgIdentifier;
  Title : string;
  Language : string;
  Description : string;
  Publisher : string;
  Source : string;
  Date : string;
  Subject : list string;
  Creator : list PkgCreator;
  Contributor : list PkgContributor;
  Meta : list PkgMeta
}.

(** The [<spine>] element. *)
Record PkgSpine : Type := mkPkgSpine {
  Items : list PkgItemref;
  Toc : string;
  Ppd : string
}.

(** The XML of the package file. *)
Record PkgRoot : Type := mkPkgRoot {
  UniqueIdentifier : string;
  Version : string;
  Metadata : PkgMetadata;
  ManifestItems : list PkgItem;
  Spine : PkgSpine
}.

Record Pkg : Type := mkPkg {
  xml : PkgRoot
}.

(** Go's [==] on [PkgMeta]: all seven fields equal. *)
#[global] Instance PkgMeta_eq_dec : EqDecision PkgMeta.
Proof. solve_decision. Defined.

Definition with_Metadata (f : PkgMetadata -> PkgMetadata) (p : Pkg) : Pkg :=
  let r := xml p in
  mkPkg (mkPkgRoot (UniqueIdentifier r) (Version r) (f (Metadata r))
           (ManifestItems r) (Spine r)).

Definition set_Meta (l : list PkgMeta) (md : PkgMetadata) : PkgMetadata :=
  mkPkgMetadata (XmlnsDc md) (Identifier md) (Title md) (Language md)
    (Description md) (Publisher md) (Source md) (Date md) (Subject md)
    (Creator md) (Contributor md) l.

Definition set_Creator (l : list PkgCreator) (md : PkgMetadata) : PkgMetadata :=
  mkPkgMetadata (XmlnsDc md) (Identifier md) (Title md) (Language md)
    (Description md) (Publisher md) (Source md) (Date md) (Subject md)
    l (Contributor md) (Meta md).

Definition set_Identifier (l : list PkgIdentifier) (md : PkgMetadata)
  : PkgMetadata :=
  mkPkgMetadata (XmlnsDc md) l (Title md) (Language md)
    (Description md) (Publisher md) (Source md) (Date md) (Subject md)
    (Creator md) (Contributor md) (Meta md).

Definition set_Title (t : string) (md : PkgMetadata) : PkgMetadata :=
  mkPkgMetadata (XmlnsDc md) (Identifier md) t (Language md)
    (Description md) (Publisher md) (Source md) (Date md) (Subject md)
    (Creator md) (Contributor md) (Meta md).

Definition set_Language (l : string) (md : PkgMetadata) : PkgMetadata :=
  mkPkgMetadata (XmlnsDc md) (Identifier md) (Title md) l
    (Description md) (Publisher md) (Source md) (Date md) (Subject md)
    (Creator md) (Contributor md) (Meta md).

(** [NewPkg]: the zero [PkgRoot] with [XmlnsDc] set, after
    [xml.Unmarshal] of [pkgFileTemplate] into it.  The decoder matches a
    field to an element or attribute by local name, so the attributes
    [version] and [unique-identifier] of [<package>] and [toc] of [<spine>]
    are read, while the fields tagged with a [dc:] prefix stay as they
    were: no identifier, an empty title and language. *)
Definition NewPkg : Pkg :=
  mkPkg (mkPkgRoot "pub-id" "3.0"
           (mkPkgMetadata xmlnsDc [] "" "" "" "" "" "" [] [] [] [])
           []
           (mkPkgSpine [] "ncx" "")).

(** The loop of [updateMeta]: the index of the first entry equal to [m],
    counting from [i]; [-1] when there is none. *)
Fixpoint indexToReplace (a : list PkgMeta) (m : PkgMeta) (i : Z) : Z :=
  match a with
  | [] => -1
  | meta :: a' => if decide (meta = m) then i else indexToReplace a' m (i + 1)
  end.

(** Update the [<meta>] element. *)
Definition updateMeta (a : list PkgMeta) (m : PkgMeta) : list PkgMeta :=
  let i := indexToReplace a m 0 in
  if i =? -1 then a ++ [ m ] else <[ Z.to_nat i := m ]> a.

Definition creatorId (p : Pkg) : string :=
  Go.Sprintf "%s%d"
    [ Go.Str pkgCreatorID; Go.Int (Go.len_list (Creator (Metadata (xml p)))) ].

Definition AddAuthor (p : Pkg) (author role : string) : Pkg :=
  let id := creatorId p in
  let p1 :=
    with_Metadata
      (fun md => set_Creator (Creator md ++ [ mkPkgCreator id author ]) md) p in
  let meta := mkPkgMeta ("#" +:+ id) PropertyRole SchemeMARCRelators id role "" "" in
  with_Metadata (fun md => set_Meta (updateMeta (Meta md) meta) md) p1.

Definition AddContributor (p : Pkg) (author role : string) : Pkg :=
  let id := creatorId p in
  let p1 :=
    with_Metadata
      (fun md => set_Creator (Creator md ++ [ mkPkgCreator id author ]) md) p in
  let meta := mkPkgMeta ("#" +:+ id) PropertyRole SchemeMARCRelators id role "" "" in
  with_Metadata (fun md => set_Meta (updateMeta (Meta md) meta) md) p1.

(** [Pkg.SetCover]: the EPUB 2 cover meta element. *)
Definition Pkg_SetCover (p : Pkg) (coverRef : string) : Pkg :=
  let meta := mkPkgMeta "" "" "" "" "" "cover" coverRef in
  with_Metadata (fun md => set_Meta (updateMeta (Meta md) meta) md) p.

Definition AddCustomMeta (p : Pkg) (name content : string) : Pkg :=
  let meta := mkPkgMeta "" "" "" "" "" name content in
  with_Metadata (fun md => set_Meta (updateMeta (Meta md) meta) md) p.

Definition AddIdentifier (p : Pkg) (identifier typeSchema typeContent : string)
  : Pkg :=
  let id := creatorId p in
  let p1 :=
    with_Metadata
      (fun md =>
         set_Identifier (Identifier md ++ [ mkPkgIdentifier id identifier ]) md)
      p in
  let meta :=
    mkPkgMeta ("#" +:+ id) PropertyIdentifierType typeSchema id typeContent "" "" in
  with_Metadata (fun md => set_Meta (updateMeta (Meta md) meta) md) p1.

Definition SetLang (p : Pkg) (lang : string) : Pkg :=
  with_Metadata (set_Language lang) p.

Definition SetModified (p : Pkg) (timestamp : string) : Pkg :=
  let meta := mkPkgMeta "" PropertyModified "" "" timestamp "" "" in
  with_Metadata (fun md => set_Meta (updateMeta (Meta md) meta) md) p.

Definition Pkg_SetTitle (p : Pkg) (title : string) : Pkg :=
  with_Metadata (set_Title title) p.

Definition with_ManifestItems (f : list PkgItem -> list PkgItem) (p : Pkg) : Pkg :=
  let r := xml p in
  mkPkg (mkPkgRoot (UniqueIdentifier r) (Version r) (Metadata r)
           (f (ManifestItems r)) (Spine r)).

Definition with_Spine (f : PkgSpine -> PkgSpine) (p : Pkg) : Pkg :=
  let r := xml p in
  mkPkg (mkPkgRoot (UniqueIdentifier r) (Version r) (Metadata r)
           (ManifestItems r) (f (Spine r))).

Definition set_Description (d : string) (md : PkgMetadata) : PkgMetadata :=
  mkPkgMetadata (XmlnsDc md) (Identifier md) (Title md) (Language md)
    d (Publisher md) (Source md) (Date md) (Subject md)
    (Creator md) (Contributor md) (Meta md).

Definition set_Publisher (s : string) (md : PkgMetadata) : PkgMetadata :=
  mkPkgMetadata (XmlnsDc md) (Identifier md) (Title md) (Language md)
    (Description md) s (Source md) (Date md) (Subject md)
    (Creator md) (Contributor md) (Meta md).

Definition set_Source (s : string) (md : PkgMetadata) : PkgMetadata :=
  mkPkgMetadata (XmlnsDc md) (Identifier md) (Title md) (Language md)
    (Description md) (Publisher md) s (Date md) (Subject md)
    (Creator md) (Contributor md) (Meta md).

Definition set_Date (s : string) (md : PkgMetadata) : PkgMetadata :=
  mkPkgMetadata (XmlnsDc md) (Identifier md) (Title md) (Language md)
    (Description md) (Publisher md) (Source md) s (Subject md)
    (Creator md) (Contributor md) (Meta md).

Definition set_Subject (l : list string) (md : PkgMetadata) : PkgMetadata :=
  mkPkgMetadata (XmlnsDc md) (Identifier md) (Title md) (Language md)
    (Description md) (Publisher md) (Source md) (Date md) l
    (Creator md) (Contributor md) (Meta md).

Definition AddToManifest (p : Pkg) (id href mediaType properties : string) : Pkg :=
  let href := Go.ToSlash href in
  with_ManifestItems (fun l => l ++ [ mkPkgItem id href mediaType properties ]) p.

Definition AddToSpine (p : Pkg) (id : string) : Pkg :=
  with_Spine (fun s => mkPkgSpine (Items s ++ [ mkPkgItemref id ]) (Toc s) (Ppd s)) p.

Definition SetDescription (p : Pkg) (desc : string) : Pkg :=
  with_Metadata (set_Description desc) p.

Definition SetPublisher (p : Pkg) (publisher : string) : Pkg :=
  with_Metadata (set_Publisher publisher) p.

Definition SetSource (p : Pkg) (source : string) : Pkg :=
  with_Metadata (set_Source source) p.

(** [SetDate]; [formatted] is the text [dt.Format(time.RFC3339)] gives
    for the time passed in. *)
Definition SetDate (p : Pkg) (formatted : string) : Pkg :=
  with_Metadata (set_Date formatted) p.

Definition SetSubject (p : Pkg) (subject : list string) : Pkg :=
  with_Metadata (set_Subject subject) p.

Definition AddSubject (p : Pkg) (subject : string) : Pkg :=
  with_Metadata (fun md => set_Subject (Subject md ++ [ subject ]) md) p.

Definition SetPpd (p : Pkg) (direction : string) : Pkg :=
  with_Spine (fun s => mkPkgSpine (Items s) (Toc s) direction) p.

(** The exported methods of [Pkg], as calls with their arguments. *)
Inductive PkgCall : Type :=
| CallAddToManifest (id href mediaType properties : string)
| CallAddToSpine (id : string)
| CallAddAuthor (author role : string)
| CallAddContributor (author role : string)
| CallSetCover (coverRef : string)
| CallAddCustomMeta (name content : string)
| CallAddIdentifier (identifier typeSchema typeContent : string)
| CallSetLang (lang : string)
| CallSetDescription (desc : string)
| CallSetPublisher (publisher : string)
| CallSetSource (source : string)
| CallSetDate (formatted : string)
| CallSetSubject (subject : list string)
| CallAddSubject (subject : string)
| CallSetPpd (direction : string)
| CallSetModified (timestamp : string)
| CallSetTitle (title : string).

Definition call (p : Pkg) (c : PkgCall) : Pkg :=
  match c with
  | CallAddToManifest id href mediaType properties =>
      AddToManifest p id href mediaType properties
  | CallAddToSpine id => AddToSpine p id
  | CallAddAuthor author role => AddAuthor p author role
  | CallAddContributor author role => AddContributor p author role
  | CallSetCover coverRef => Pkg_SetCover p coverRef
  | CallAddCustomMeta name content => AddCustomMeta p name content
  | CallAddIdentifier identifier typeSchema typeContent =>
      AddIdentifier p identifier typeSchema typeContent
  | CallSetLang lang => SetLang p lang
  | CallSetDescription desc => SetDescription p desc
  | CallSetPublisher publisher => SetPublisher p publisher
  | CallSetSource source => SetSource p source
  | CallSetDate formatted => SetDate p formatted
  | CallSetSubject subject => SetSubject p subject
  | CallAddSubject subject => AddSubject p subject
  | CallSetPpd direction => SetPpd p direction
  | CallSetModified timestamp => SetModified p timestamp
  | CallSetTitle title => Pkg_SetTitle p title
  end.

(** A sequence of calls, first call first. *)
Definition calls (cs : list PkgCall) (p : Pkg) : Pkg := fold_left call cs p.

(** The manifest item a call adds, if it adds one. *)
Definition manifest_item_of (c : PkgCall) : list PkgItem :=
  match c with
  | CallAddToManifest id href mediaType properties =>
      [ mkPkgItem id (Go.ToSlash href) mediaType properties ]
  | _ => []
  end.

(** The spine reference a call adds, if it adds one. *)
Definition spine_item_of (c : PkgCall) : list PkgItemref :=
  match c with
  | CallAddToSpine id => [ mkPkgItemref id ]
  | _ => []
  end.

(** The role meta entry [AddAuthor] and [AddContributor] write for the
    creator with the id [id]. *)
Definition roleMeta (id role : string) : PkgMeta :=
  mkPkgMeta ("#" +:+ id) PropertyRole SchemeMARCRelators id role "" "".

(** The meta entry [AddIdentifier] writes for the identifier with the id
    [id]. *)
Definition identifierMeta (id typeSchema typeContent : string) : PkgMeta :=
  mkPkgMeta ("#" +:+ id) PropertyIdentifierType typeSchema id typeContent "" "".

(** The (refines, property) identity of a meta entry. *)
Definition identity (m : PkgMeta) : string * string := (Refines m, Property m).

(** The entry [SetModified] writes. *)
Definition modifiedMeta (timestamp : string) : PkgMeta :=
  mkPkgMeta "" PropertyModified "" "" timestamp "" "".

(** A string that is one path element: not empty, without a slash, and
    neither ["."] nor [".."]. *)
Definition single_element (name : string) : bool :=
  negb (Go.is_empty name || Go.has_slash name
        || String.eqb name "." || String.eqb name "..").

(** ** epub.go: the publication *)

Definition CSSFolderName : string := "css".
Definition FontFolderName : string := "fonts".
Definition ImageFolderName : string := "images".
Definition VideoFolderName : string := "videos".

Definition cssFileFormat : string := "css%04d%s".
Definition dquote : string := String (ascii_of_nat 34) "".
Definition defaultCoverBody : string :=
  Eval cbv in
    "<img src=" +:+ dquote +:+ "%s" +:+ dquote
    +:+ " alt=" +:+ dquote +:+ "Cover Image" +:+ dquote +:+ " />".
Definition defaultCoverCSSContent : string :=
"body {
  background-color: #FFFFFF;
  margin-bottom: 0px;
  margin-left: 0px;
  margin-right: 0px;
  margin-top: 0px;
  text-align: center;
}
img {
  max-height: 100%;
  max-width: 100%;
}
".
Definition defaultCoverCSSFilename : string := "cover.css".
Definition defaultCoverXhtmlFilename : string := "cover.xhtml".
Definition defaultEpubLang : string := "en".
Definition fontFileFormat : string := "font%04d%s".
Definition imageFileFormat : string := "image%04d%s".
Definition videoFileFormat : string := "video%04d%s".
Definition sectionFileFormat : string := "section%04d.xhtml".
Definition urnUUIDPrefix : string := "urn:uuid:".

Record epubCover : Type := mkEpubCover {
  cssFilename : string;
  cssTempFile : string;
  imageFilename : string;
  xhtmlFilename : string
}.

(** Modelled from the spec: the XHTML document type of xhtml.go, which is
    not among the sources; the spec gives it as the record of a body markup,
    an optional title and an optional stylesheet path, built by [newXhtml]
    and filled in by [setTitle] and [setCSS]. *)
Record xhtml : Type := mkXhtml {
  x_body : string;
  x_title : string;
  x_css : string
}.

Definition newXhtml (body : string) : xhtml := mkXhtml body "" "".
Definition setTitle (x : xhtml) (title : string) : xhtml :=
  mkXhtml (x_body x) title (x_css x).
Definition setCSS (x : xhtml) (path : string) : xhtml :=
  mkXhtml (x_body x) (x_title x) path.

Record epubSection : Type := mkEpubSection {
  filename : string;
  s_xhtml : xhtml
}.

(** Modelled from the spec: the table of contents of toc.go, which is not
    among the sources; only its title is touched by the code modelled
    here. *)
Record toc : Type := mkToc {
  toc_title : string
}.

Definition newToc : toc := mkToc "".
Definition toc_setTitle (t : toc) (title : string) : toc := mkToc title.

(** An EPUB file.  The mutex and the HTTP client are left out: every
    method below runs with the lock held, and the client only reaches
    [checkMedia]. *)
Record Epub : Type := mkEpub {
  cover : epubCover;
  css : gmap string string;
  fonts : gmap string string;
  images : gmap string string;
  videos : gmap string string;
  lang : string;
  desc : string;
  ppd : string;
  e_Pkg : Pkg;
  sections : list epubSection;
  e_toc : toc
}.

Definition set_cover (c : epubCover) (e : Epub) : Epub :=
  mkEpub c (css e) (fonts e) (images e) (videos e) (lang e) (desc e) (ppd e)
    (e_Pkg e) (sections e) (e_toc e).
Definition set_css (m : gmap string string) (e : Epub) : Epub :=
  mkEpub (cover e) m (fonts e) (images e) (videos e) (lang e) (desc e) (ppd e)
    (e_Pkg e) (sections e) (e_toc e).
Definition set_fonts (m : gmap string string) (e : Epub) : Epub :=
  mkEpub (cover e) (css e) m (images e) (videos e) (lang e) (desc e) (ppd e)
    (e_Pkg e) (sections e) (e_toc e).
Definition set_images (m : gmap string string) (e : Epub) : Epub :=
  mkEpub (cover e) (css e) (fonts e) m (videos e) (lang e) (desc e) (ppd e)
    (e_Pkg e) (sections e) (e_toc e).
Definition set_videos (m : gmap string string) (e : Epub) : Epub :=
  mkEpub (cover e) (css e) (fonts e) (images e) m (lang e) (desc e) (ppd e)
    (e_Pkg e) (sections e) (e_toc e).
Definition set_Pkg (p : Pkg) (e : Epub) : Epub :=
  mkEpub (cover e) (css e) (fonts e) (images e) (videos e) (lang e) (desc e)
    (ppd e) p (sections e) (e_toc e).
Definition set_sections (l : list epubSection) (e : Epub) : Epub :=
  mkEpub (cover e) (css e) (fonts e) (images e) (videos e) (lang e) (desc e)
    (ppd e) (e_Pkg e) l (e_toc e).
Definition set_toc (t : toc) (e : Epub) : Epub :=
  mkEpub (cover e) (css e) (fonts e) (images e) (videos e) (lang e) (desc e)
    (ppd e) (e_Pkg e) (sections e) t.

(** Is [name] the filename of one of the sections?  (The [range] loops of
    [addSection].) *)
Definition section_used (ss : list epubSection) (name : string) : bool :=
  existsb (fun s => String.eqb (filename s) name) ss.

(** The name-generating loop of [addSection], from [index] on; each turn
    tries one index, and [fuel] bounds the number of turns. *)
Fixpoint generateSectionFilename (fuel : nat) (ss : list epubSection) (index : Z)
  : option string :=
  match fuel with
  | O => None
  | S fuel' =>
      let internalFilename := Go.Sprintf sectionFileFormat [ Go.Int index ] in
      if section_used ss internalFilename
      then generateSectionFilename fuel' ss (Go.wrapInt (index + 1))
      else Some internalFilename
  end.

(** The sections without the first one named [name]. *)
Fixpoint removeSection (name : string) (ss : list epubSection)
  : list epubSection :=
  match ss with
  | [] => []
  | s :: ss' =>
      if String.eqb (filename s) name then ss' else s :: removeSection name ss'
  end.

(** Sample collaborators, to run the model on concrete inputs: a media
    check that accepts every source but [missing], lower-casing of the
    ASCII letters, and a stand-in for the data URL encoder. *)
Definition sampleCheck (missing : string) (source : string) : option string :=
  if String.eqb source missing then Some "no such file" else None.

Definition lowerAscii (c : ascii) : ascii :=
  let n := nat_of_ascii c in
  if ((65 <=? n) && (n <=? 90))%nat then ascii_of_nat (n + 32) else c.

Fixpoint sampleToLower (s : string) : string :=
  match s with
  | EmptyString => ""
  | String c s' => String (lowerAscii c) (sampleToLower s')
  end.

Definition sampleEncodeBytes (data : string) : string :=
  "data:text/plain;charset=utf-8;base64," +:+ data.

Section Publication.

(** What the package gets from outside: the error values of the media
    grabber and its existence check [checkMedia] (fetchmedia.go, not
    among the sources; [None] is Go's [nil]), [strings.ToLower], and
    [dataurl.EncodeBytes]. *)
Variable fetchError : Type.
Variable checkMedia : string -> option fetchError.
Variable ToLower : string -> string.
Variable EncodeBytes : string -> string.

Inductive error : Type :=
| FilenameAlreadyUsedError (Filename : string)
| FileRetrievalError (Source : string) (Err : fetchError).

Definition isFilenameAlreadyUsed (err : option error) : bool :=
  match err with
  | Some (FilenameAlreadyUsedError _) => true
  | _ => false
  end.

(** How a call that may panic ends; [OutOfFuel] is the name-generating
    loop cut short by its bound. *)
Inductive outcome (A : Type) : Type :=
| Done (a : A)
| Panic (msg : string) (err : option error)
| OutOfFuel.

Arguments Done {A} a.
Arguments Panic {A} msg err.
Arguments OutOfFuel {A}.

(** Add a media file to the EPUB and return the path relative to the
    EPUB section files.  The result carries the map as the call leaves
    it. *)
Definition addMedia (source internalFilename mediaFileFormat mediaFolderName : string)
    (mediaMap : gmap string string)
  : string * option error * gmap string string :=
  match checkMedia source with
  | Some err => ("", Some (FileRetrievalError source err), mediaMap)
  | None =>
      let internalFilename :=
        if Go.is_empty internalFilename then
          let internalFilename := Go.Base source in
          let ok := bool_decide (is_Some (mediaMap !! internalFilename)) in
          if (255 <? Z.of_nat (String.length internalFilename))
             || negb (Go.ValidPath internalFilename) || ok
          then
            Go.Sprintf mediaFileFormat
              [ Go.Int (Go.wrapInt (Z.of_nat (size mediaMap) + 1));
                Go.Str (ToLower (Go.Ext source)) ]
          else internalFilename
        else internalFilename in
      if bool_decide (is_Some (mediaMap !! internalFilename))
      then ("", Some (FilenameAlreadyUsedError internalFilename), mediaMap)
      else
        (Go.Join [ ".."; mediaFolderName; internalFilename ], None,
         <[ internalFilename := source ]> mediaMap)
  end.

Definition addCSS (e : Epub) (source internalFilename : string)
  : string * option error * Epub :=
  let '(p, err, m) :=
    addMedia source internalFilename cssFileFormat CSSFolderName (css e) in
  (p, err, set_css m e).

Definition AddCSS := addCSS.

Definition AddFont (e : Epub) (source internalFilename : string)
  : string * option error * Epub :=
  let '(p, err, m) :=
    addMedia source internalFilename fontFileFormat FontFolderName (fonts e) in
  (p, err, set_fonts m e).

Definition AddImage (e : Epub) (source imageFilename : string)
  : string * option error * Epub :=
  let '(p, err, m) :=
    addMedia source imageFilename imageFileFormat ImageFolderName (images e) in
  (p, err, set_images m e).

Definition AddVideo (e : Epub) (source videoFilename : string)
  : string * option error * Epub :=
  let '(p, err, m) :=
    addMedia source videoFilename videoFileFormat VideoFolderName (videos e) in
  (p, err, set_videos m e).

(** [addSection]; [None] when the name-generating loop used up [fuel]. *)
Definition addSection (fuel : nat) (e : Epub)
    (body sectionTitle internalFilename internalCSSPath : string)
  : option (string * option error * Epub) :=
  let resolved : option (string + error) :=
    if Go.is_empty internalFilename then
      match generateSectionFilename fuel (sections e) 1 with
      | Some name => Some (inl name)
      | None => None
      end
    else if section_used (sections e) internalFilename
    then Some (inr (FilenameAlreadyUsedError internalFilename))
    else Some (inl internalFilename) in
  match resolved with
  | None => None
  | Some (inr err) => Some ("", Some err, e)
  | Some (inl internalFilename) =>
      let x := newXhtml body in
      let x := setTitle x sectionTitle in
      let x := if negb (Go.is_empty internalCSSPath) then setCSS x internalCSSPath else x in
      let s := mkEpubSection internalFilename x in
      Some (internalFilename, None, set_sections (sections e ++ [ s ]) e)
  end.

Definition AddSection := addSection.

(** The first part of [SetCover]: tear down the cover that exists. *)
Definition removeCover (e : Epub) : Epub :=
  if negb (Go.is_empty (xhtmlFilename (cover e))) then
    let e := set_sections (removeSection (xhtmlFilename (cover e)) (sections e)) e in
    let e := set_images (delete (imageFilename (cover e)) (images e)) e in
    set_css (delete (cssFilename (cover e)) (css e)) e
  else e.

(** The stylesheet part of [SetCover]: the path of the stylesheet the
    cover page links, with the publication once the default stylesheet
    is registered when none was given. *)
Definition coverCSS (e : Epub) (internalCSSPath : string)
  : outcome (string * Epub) :=
  if Go.is_empty internalCSSPath then
    let c := cover e in
    let tmp := EncodeBytes defaultCoverCSSContent in
    let e := set_cover (mkEpubCover (cssFilename c) tmp (imageFilename c)
                          (xhtmlFilename c)) e in
    let '(internalCSSPath, err, e1) := addCSS e tmp defaultCoverCSSFilename in
    let '(internalCSSPath, err, e2, panicked) :=
      if isFilenameAlreadyUsed err then
        let coverCSSFilename :=
          Go.Sprintf cssFileFormat
            [ Go.Int (Go.wrapInt (Z.of_nat (size (css e1)) + 1)); Go.Str ".css" ] in
        let '(p2, err2, e2) := addCSS e1 tmp coverCSSFilename in
        (p2, err2, e2, isFilenameAlreadyUsed err2)
      else (internalCSSPath, err, e1, false) in
    if panicked then Panic "Error adding default cover CSS file" err
    else
      match err with
      | Some _ =>
          if negb (isFilenameAlreadyUsed err) then Panic "DEBUG" err
          else Done (internalCSSPath, e2)
      | None => Done (internalCSSPath, e2)
      end
  else Done (internalCSSPath, e).

(** [SetCover] sets the cover page for the EPUB using the provided image
    and optional CSS.  [os.Remove] of the old temporary stylesheet acts
    on the file system only and is left out. *)
Definition SetCover (fuel : nat) (e : Epub)
    (internalImagePath internalCSSPath : string) : outcome Epub :=
  let e := removeCover e in
  let c := cover e in
  let e := set_cover (mkEpubCover (cssFilename c) (cssTempFile c)
                        (Go.Base internalImagePath) (xhtmlFilename c)) e in
  let e := set_Pkg (Pkg_SetCover (e_Pkg e) (imageFilename (cover e))) e in
  match coverCSS e internalCSSPath with
  | Panic msg err => Panic msg err
  | OutOfFuel => OutOfFuel
  | Done (internalCSSPath, e) =>
      let c := cover e in
      let e := set_cover (mkEpubCover (Go.Base internalCSSPath) (cssTempFile c)
                            (imageFilename c) (xhtmlFilename c)) e in
      let coverBody := Go.Sprintf defaultCoverBody [ Go.Str internalImagePath ] in
      match addSection fuel e coverBody "" defaultCoverXhtmlFilename internalCSSPath with
      | None => OutOfFuel
      | Some (coverPath, err, e1) =>
          let second :=
            if isFilenameAlreadyUsed err then
              match addSection fuel e1 coverBody "" "" internalCSSPath with
              | None => OutOfFuel
              | Some (coverPath2, err2, e2) =>
                  if isFilenameAlreadyUsed err2
                  then Panic "Error adding default cover XHTML file" err2
                  else Done (coverPath2, e2)
              end
            else Done (coverPath, e1) in
          match second with
          | Panic msg err => Panic msg err
          | OutOfFuel => OutOfFuel
          | Done (coverPath, e2) =>
              let c := cover e2 in
              Done (set_cover (mkEpubCover (cssFilename c) (cssTempFile c)
                                   (imageFilename c) (Go.Base coverPath)) e2)
          end
      end
  end.

(** [SetTitle] sets the title of the EPUB. *)
Definition SetTitle (e : Epub) (title : string) : Epub :=
  let e := set_Pkg (Pkg_SetTitle (e_Pkg e) title) e in
  set_toc (toc_setTitle (e_toc e) title) e.

(** [NewEpub]; [uuid4] is the text of the random UUID drawn by
    [uuid.NewV4]. *)
Definition NewEpub (uuid4 title : string) : Epub :=
  let e := mkEpub (mkEpubCover "" "" "" "") ∅ ∅ ∅ ∅ "" "" "" NewPkg [] newToc in
  let e := set_Pkg (AddIdentifier (e_Pkg e) (urnUUIDPrefix +:+ uuid4)
                      SchemeXSDString PropertyIdentifierTypeUUID) e in
  let e := set_Pkg (SetLang (e_Pkg e) defaultEpubLang) e in
  SetTitle e title.

(** The publication the stylesheet part of [SetCover] holds when it
    panics: the data URL is recorded, and the calls of [addCSS] have
    run. *)
Definition coverCSS_at_panic (e : Epub) : Epub :=
  let c := cover e in
  let tmp := EncodeBytes defaultCoverCSSContent in
  let e := set_cover (mkEpubCover (cssFilename c) tmp (imageFilename c)
                        (xhtmlFilename c)) e in
  let '(_, err, e1) := addCSS e tmp defaultCoverCSSFilename in
  if isFilenameAlreadyUsed err then
    let coverCSSFilename :=
      Go.Sprintf cssFileFormat
        [ Go.Int (Go.wrapInt (Z.of_nat (size (css e1)) + 1)); Go.Str ".css" ] in
    let '(_, _, e2) := addCSS e1 tmp coverCSSFilename in
    e2
  else e1.

(** The publication a call of [SetCover] that panics leaves behind.  The
    deferred [Unlock] runs while the panic unwinds, so a program that
    recovers goes on with this publication: the previous cover is torn
    down and the new image recorded, while [xhtmlFilename], written by the
    last statement only, is the one of the previous cover.  The two panics
    of the stylesheet part leave what [coverCSS_at_panic] gives; the panic
    after the second [addSection] comes with the stylesheet recorded. *)
Definition SetCover_at_panic (fuel : nat) (e : Epub)
    (internalImagePath internalCSSPath : string) : Epub :=
  let e := removeCover e in
  let c := cover e in
  let e := set_cover (mkEpubCover (cssFilename c) (cssTempFile c)
                        (Go.Base internalImagePath) (xhtmlFilename c)) e in
  let e := set_Pkg (Pkg_SetCover (e_Pkg e) (imageFilename (cover e))) e in
  match coverCSS e internalCSSPath with
  | Done (internalCSSPath, e) =>
      let c := cover e in
      let e := set_cover (mkEpubCover (Go.Base internalCSSPath) (cssTempFile c)
                            (imageFilename c) (xhtmlFilename c)) e in
      let coverBody := Go.Sprintf defaultCoverBody [ Go.Str internalImagePath ] in
      match addSection fuel e coverBody "" defaultCoverXhtmlFilename internalCSSPath with
      | Some (_, err, e1) =>
          if isFilenameAlreadyUsed err then
            match addSection fuel e1 coverBody "" "" internalCSSPath with
            | Some (_, _, e2) => e2
            | None => e1
            end
          else e1
      | None => e
      end
  | _ => coverCSS_at_panic e
  end.

(** One call of an exported method of [Epub] that returns, or of a
    method of its exported field [Pkg]. *)
Inductive returns : Epub -> Epub -> Prop :=
| returns_AddCSS e source internalFilename p err e' :
    AddCSS e source internalFilename = (p, err, e') -> returns e e'
| returns_AddFont e source internalFilename p err e' :
    AddFont e source internalFilename = (p, err, e') -> returns e e'
| returns_AddImage e source imageFilename p err e' :
    AddImage e source imageFilename = (p, err, e') -> returns e e'
| returns_AddVideo e source videoFilename p err e' :
    AddVideo e source videoFilename = (p, err, e') -> returns e e'
| returns_AddSection fuel e body sectionTitle internalFilename internalCSSPath p err e' :
    AddSection fuel e body sectionTitle internalFilename internalCSSPath
    = Some (p, err, e') ->
    returns e e'
| returns_SetCover fuel e internalImagePath internalCSSPath e' :
    SetCover fuel e internalImagePath internalCSSPath = Done e' -> returns e e'
| returns_SetTitle e title : returns e (SetTitle e title)
| returns_Pkg e c : returns e (set_Pkg (call (e_Pkg e) c) e).

(** One call, however it ends: a call that returns, or a call of
    [SetCover] that panics. *)
Inductive step : Epub -> Epub -> Prop :=
| step_returns e e' : returns e e' -> step e e'
| step_SetCover_panics fuel e internalImagePath internalCSSPath msg err :
    SetCover fuel e internalImagePath internalCSSPath = Panic msg err ->
    step e (SetCover_at_panic fuel e internalImagePath internalCSSPath).

(** The publications a program can build: from [NewEpub], by calls, going
    on after a panic of [SetCover] as well. *)
Inductive reachable : Epub -> Prop :=
| reachable_new uuid4 title : reachable (NewEpub uuid4 title)
| reachable_step e e' : reachable e -> step e e' -> reachable e'.

(** The publications whose latest call of [SetCover], if there was one,
    returned. *)
Inductive settled : Epub -> Prop :=
| settled_new uuid4 title : settled (NewEpub uuid4 title)
| settled_SetCover fuel e internalImagePath internalCSSPath e' :
    reachable e ->
    SetCover fuel e internalImagePath internalCSSPath = Done e' -> settled e'
| settled_returns e e' : settled e -> returns e e' -> settled e'.

(** ** Strings *)

Lemma append_empty_r (s : string) : s +:+ "" = s.
Proof. induction s as [|c s' IH]; simpl; [reflexivity | now rewrite IH]. Qed.

Lemma append_assoc (a b c : string) : (a +:+ b) +:+ c = a +:+ (b +:+ c).
Proof. induction a as [|x a IH]; simpl; [reflexivity | now rewrite IH]. Qed.

Lemma length_append (a b : string) :
  String.length (a +:+ b) = (String.length a + String.length b)%nat.
Proof. induction a as [|x a IH]; simpl; [reflexivity | now rewrite IH]. Qed.

Lemma append_inv_l (a b c : string) : a +:+ b = a +:+ c -> b = c.
Proof.
  induction a as [|x a IH]; simpl; intros H; [exact H |].
  injection H as H. now apply IH.
Qed.

Lemma append_inv_r (a b c : string) : a +:+ c = b +:+ c -> a = b.
Proof.
  revert b. induction a as [|x a IH]; intros [|y b] H; simpl in H.
  - reflexivity.
  - apply (f_equal String.length) in H. simpl in H.
    rewrite length_append in H. lia.
  - apply (f_equal String.length) in H. simpl in H.
    rewrite length_append in H. lia.
  - injection H as -> H. f_equal. now apply IH.
Qed.

(** ** Paths *)

Lemma split_slash_element (s : string) :
  Go.has_slash s = false -> Go.split_slash s = [ s ].
Proof.
  induction s as [|c s' IH]; simpl; [reflexivity |].
  destruct (Go.is_slash c); simpl; [discriminate |].
  intros H. now rewrite IH.
Qed.

Lemma split_slash_app (a b : string) :
  Go.has_slash a = false ->
  Go.split_slash (a +:+ String "/" b) = a :: Go.split_slash b.
Proof.
  induction a as [|c a' IH]; simpl; [reflexivity |].
  destruct (Go.is_slash c); simpl; [discriminate |].
  intros H. now rewrite IH.
Qed.

Lemma single_element_inv (name : string) :
  single_element name = true ->
  Go.is_empty name = false /\ Go.has_slash name = false
  /\ String.eqb name "." = false /\ String.eqb name ".." = false.
Proof.
  unfold single_element. intros H. apply negb_true_iff in H.
  repeat (apply orb_false_iff in H; destruct H as [H ?]). auto.
Qed.

Lemma clean_step_element (st : list string) (e : string) :
  single_element e = true -> Go.clean_step false st e = e :: st.
Proof.
  intros H. apply single_element_inv in H as (He & _ & Hd & Hdd).
  unfold Go.clean_step. now rewrite He, Hd, Hdd.
Qed.

(** Joining [..], a folder and a file name that are single elements
    only puts slashes between them. *)
Lemma Join_elements (folder name : string) :
  single_element folder = true -> single_element name = true ->
  Go.Join [ ".."; folder; name ] = "../" +:+ folder +:+ "/" +:+ name.
Proof.
  intros Hf Hn.
  pose proof (single_element_inv _ Hf) as (Hfe & Hfs & _ & _).
  pose proof (single_element_inv _ Hn) as (Hne & Hns & _ & _).
  assert (Hs : Go.split_slash
                 (String "." (String "." (String "/" (folder +:+ String "/" name))))
               = [ ".."; folder; name ]).
  { change (String "." (String "." (String "/" (folder +:+ String "/" name))))
      with (".." +:+ String "/" (folder +:+ String "/" name)).
    rewrite (split_slash_app ".." _ eq_refl), (split_slash_app _ _ Hfs).
    now rewrite (split_slash_element _ Hns). }
  unfold Go.Join. simpl List.filter. rewrite Hfe, Hne. simpl negb. cbv iota.
  change (Go.join_slash [ ".."; folder; name ])
    with (String "." (String "." (String "/" (folder +:+ String "/" name)))).
  unfold Go.Clean. rewrite Hs.
  change (Go.is_slash ".") with false. cbv iota.
  simpl fold_left. change (Go.clean_step false [] "..") with [ ".." ].
  rewrite !clean_step_element by assumption.
  reflexivity.
Qed.

Lemma strip_element (s : string) :
  Go.has_slash s = false -> Go.strip_trailing_slashes s = s.
Proof.
  induction s as [|c s' IH]; simpl; [reflexivity |].
  destruct (Go.is_slash c); simpl; [discriminate |].
  intros H. rewrite IH by assumption. now rewrite andb_false_r.
Qed.

Lemma strip_app (a b : string) :
  Go.is_empty b = false -> Go.strip_trailing_slashes b = b ->
  Go.strip_trailing_slashes (a +:+ b) = a +:+ b.
Proof.
  intros Hb Hs. induction a as [|c a' IH]; simpl; [exact Hs |].
  rewrite IH. destruct (a' +:+ b) eqn:E; [| reflexivity].
  destruct a'; simpl in E; [subst b |]; discriminate.
Qed.

Lemma Base_element (name : string) :
  single_element name = true -> Go.Base name = name.
Proof.
  intros H. apply single_element_inv in H as (He & Hs & _ & _).
  unfold Go.Base. rewrite He, (strip_element _ Hs), (split_slash_element _ Hs).
  simpl. now rewrite He.
Qed.

(** The base name of a path as [addMedia] returns it for a file name
    that is a single element is that file name. *)
Lemma Base_Join_elements (folder name : string) :
  single_element folder = true -> single_element name = true ->
  Go.Base (Go.Join [ ".."; folder; name ]) = name.
Proof.
  intros Hf Hn. rewrite Join_elements by assumption.
  pose proof (single_element_inv _ Hf) as (Hfe & Hfs & _ & _).
  pose proof (single_element_inv _ Hn) as (Hne & Hns & _ & _).
  unfold Go.Base.
  change (Go.is_empty ("../" +:+ folder +:+ "/" +:+ name)) with false. cbv iota.
  replace ("../" +:+ folder +:+ "/" +:+ name)
    with (("../" +:+ folder +:+ "/") +:+ name)
    by (now rewrite !append_assoc).
  rewrite strip_app by (auto using strip_element).
  replace (("../" +:+ folder +:+ "/") +:+ name)
    with (".." +:+ String "/" (folder +:+ String "/" name))
    by (simpl; now rewrite !append_assoc).
  rewrite (split_slash_app ".." _ eq_refl), (split_slash_app _ _ Hfs).
  rewrite (split_slash_element _ Hns). simpl. now rewrite Hne.
Qed.

(** ** The package document *)

Lemma creatorId_eq (p : Pkg) :
  creatorId p
  = "creator" +:+ Go.fmt_d (Go.len_list (Creator (Metadata (xml p)))).
Proof. unfold creatorId. cbn. now rewrite append_empty_r. Qed.

Lemma updateMeta_nil (m : PkgMeta) : updateMeta [] m = [ m ].
Proof. reflexivity. Qed.

Lemma indexToReplace_absent (a : list PkgMeta) (m : PkgMeta) (i : Z) :
  ~ In m a -> indexToReplace a m i = -1.
Proof.
  revert i. induction a as [|x a IH]; intros i Hn; simpl; [reflexivity |].
  destruct (decide (x = m)) as [->|_].
  - exfalso. apply Hn. now left.
  - apply IH. intros Hin. apply Hn. now right.
Qed.

(** An entry that differs from every entry of the list in some field, be
    it only its data, is appended. *)
Lemma updateMeta_absent (a : list PkgMeta) (m : PkgMeta) :
  ~ In m a -> updateMeta a m = a ++ [ m ].
Proof.
  intros Hn. unfold updateMeta. now rewrite indexToReplace_absent.
Qed.

Lemma indexToReplace_range (a : list PkgMeta) (m : PkgMeta) (i : Z) :
  indexToReplace a m i = -1
  \/ (i <= indexToReplace a m i
      /\ a !! Z.to_nat (indexToReplace a m i - i) = Some m).
Proof.
  revert i. induction a as [|x a IH]; intros i; simpl; [now left |].
  destruct (decide (x = m)) as [->|Hne].
  - right. split; [lia |]. now rewrite Z.sub_diag.
  - destruct (IH (i + 1)) as [H | [Hle Hnth]]; [now left | right].
    split; [lia |].
    replace (Z.to_nat (indexToReplace a m (i + 1) - i))
      with (S (Z.to_nat (indexToReplace a m (i + 1) - (i + 1)))) by lia.
    exact Hnth.
Qed.

(** The list only ever changes by an append: the branch that replaces
    writes an entry over an equal one. *)
Lemma updateMeta_cases (a : list PkgMeta) (m : PkgMeta) :
  updateMeta a m = a ++ [ m ] \/ (In m a /\ updateMeta a m = a).
Proof.
  unfold updateMeta.
  destruct (indexToReplace_range a m 0) as [H | [Hle Hnth]].
  - left. now rewrite H.
  - rewrite Z.sub_0_r in Hnth.
    destruct (indexToReplace a m 0 =? -1) eqn:E; [now left | right].
    split; [apply list_elem_of_In; eapply list_elem_of_lookup_2; eassumption |].
    now apply list_insert_id.
Qed.

(** C1: calling [SetModified] twice on a new package document leaves one
    [dcterms:modified] entry only when the two timestamps are the same
    text; with two different timestamps both entries stay, although
    they have the same (refines, property) identity. *)
Theorem SetModified_twice (t1 t2 : string) :
  let metas := Meta (Metadata (xml (SetModified (SetModified NewPkg t1) t2))) in
  metas
  = (if decide (t1 = t2) then [ modifiedMeta t1 ]
     else [ modifiedMeta t1; modifiedMeta t2 ])
  /\ Forall (fun m => identity m = ("", "dcterms:modified")) metas.
Proof.
  cbn -[updateMeta decide]. rewrite updateMeta_nil.
  assert (Hm : updateMeta [ modifiedMeta t1 ] (modifiedMeta t2)
               = if decide (t1 = t2) then [ modifiedMeta t1 ]
                 else [ modifiedMeta t1; modifiedMeta t2 ]).
  { destruct (decide (t1 = t2)) as [->|Hne].
    - unfold updateMeta. simpl. now rewrite decide_True.
    - apply updateMeta_absent. intros [H | []].
      apply Hne. now injection H. }
  fold (modifiedMeta t1) (modifiedMeta t2). rewrite Hm. split; [reflexivity |].
  destruct (decide (t1 = t2)); repeat constructor.
Qed.

(** C3: the first identifier added to a new package document gets the id
    [creator0], with a meta entry refining [#creator0], while the
    [unique-identifier] attribute of the package names [pub-id]: no
    identifier carries that id. *)
Theorem AddIdentifier_first (identifier typeSchema typeContent : string) :
  let p := AddIdentifier NewPkg identifier typeSchema typeContent in
  Identifier (Metadata (xml p)) = [ mkPkgIdentifier "creator0" identifier ]
  /\ Meta (Metadata (xml p))
     = [ mkPkgMeta "#creator0" PropertyIdentifierType typeSchema "creator0"
           typeContent "" "" ]
  /\ UniqueIdentifier (xml p) = "pub-id"
  /\ Forall (fun i => identifier_ID i <> UniqueIdentifier (xml p))
       (Identifier (Metadata (xml p))).
Proof.
  cbn. repeat split. constructor; [discriminate | constructor].
Qed.

(** C4: [AddContributor] leaves the contributor sequence as it is and
    appends its entry to the creator sequence, with a role meta entry
    in the MARC relators scheme that refines the new id. *)
Theorem AddContributor_appends_creator (p : Pkg) (name role : string) :
  let p' := AddContributor p name role in
  let id := creatorId p in
  Contributor (Metadata (xml p')) = Contributor (Metadata (xml p))
  /\ Creator (Metadata (xml p'))
     = Creator (Metadata (xml p)) ++ [ mkPkgCreator id name ]
  /\ In (mkPkgMeta ("#" +:+ id) PropertyRole SchemeMARCRelators id role "" "")
       (Meta (Metadata (xml p'))).
Proof.
  intros p' id. subst p' id. unfold AddContributor.
  remember (mkPkgMeta _ _ _ _ _ _ _) as meta eqn:Hmeta. clear Hmeta.
  remember (creatorId p) as id eqn:Hid. clear Hid.
  destruct p as [[u v md items sp]]. simpl.
  repeat split.
  destruct (updateMeta_cases (Meta md) meta) as [-> | [Hin ->]].
  - apply in_or_app. right. now left.
  - exact Hin.
Qed.

(** The id [AddIdentifier] gives comes from the creator sequence. *)
Lemma AddIdentifier_appends (p : Pkg) (identifier typeSchema typeContent : string) :
  Identifier (Metadata (xml (AddIdentifier p identifier typeSchema typeContent)))
  = Identifier (Metadata (xml p))
    ++ [ mkPkgIdentifier
           ("creator" +:+ Go.fmt_d (Go.len_list (Creator (Metadata (xml p)))))
           identifier ].
Proof. cbn -[creatorId]. now rewrite creatorId_eq. Qed.

(** C10: [AddIdentifier] names the new identifier [creator<N>] with N the
    length of the creator sequence; so in a new publication the
    identifier and the first author both get [creator0], and so do
    the two meta entries linked to them. *)
Theorem NewEpub_AddAuthor_share_id (uuid4 title author role : string) :
  (forall p identifier typeSchema typeContent,
      Identifier (Metadata (xml (AddIdentifier p identifier typeSchema typeContent)))
      = Identifier (Metadata (xml p))
        ++ [ mkPkgIdentifier
               ("creator" +:+ Go.fmt_d (Go.len_list (Creator (Metadata (xml p)))))
               identifier ])
  /\ let md := Metadata (xml (AddAuthor (e_Pkg (NewEpub uuid4 title)) author role)) in
     Identifier md = [ mkPkgIdentifier "creator0" ("urn:uuid:" +:+ uuid4) ]
     /\ Creator md = [ mkPkgCreator "creator0" author ]
     /\ Meta md
        = [ mkPkgMeta "#creator0" "identifier-type" "xsd:string" "creator0"
              "uuid" "" "";
            mkPkgMeta "#creator0" "role" "marc:relators" "creator0" role "" "" ].
Proof.
  split; [apply AddIdentifier_appends |].
  cbn. repeat split.
Qed.

(** ** The resource registry *)

(** C5: when the check of the source fails, [addMedia] returns a
    [FileRetrievalError] that wraps the source and the error of the
    check, and the map is the one it was given. *)
Theorem addMedia_retrieval_failure
    (source internalFilename mediaFileFormat mediaFolderName : string)
    (mediaMap : gmap string string) (err : fetchError) :
  checkMedia source = Some err ->
  addMedia source internalFilename mediaFileFormat mediaFolderName mediaMap
  = ("", Some (FileRetrievalError source err), mediaMap).
Proof. intros H. unfold addMedia. now rewrite H. Qed.

(** C7, amended: with a requested filename that is not empty and is a
    key of the map, [addMedia] fails and leaves the map as it was; the
    error is [FilenameAlreadyUsedError] with that filename when the
    source passes the check, and [FileRetrievalError] when it does
    not. *)
Theorem addMedia_used_filename
    (source internalFilename mediaFileFormat mediaFolderName : string)
    (mediaMap : gmap string string) :
  internalFilename <> "" ->
  is_Some (mediaMap !! internalFilename) ->
  let r := addMedia source internalFilename mediaFileFormat mediaFolderName
             mediaMap in
  r.2 = mediaMap
  /\ (checkMedia source = None ->
      r = ("", Some (FilenameAlreadyUsedError internalFilename), mediaMap))
  /\ (forall err, checkMedia source = Some err ->
                 r = ("", Some (FileRetrievalError source err), mediaMap)).
Proof.
  intros Hne Hin r. subst r. unfold addMedia.
  destruct (checkMedia source) as [err|].
  - repeat split; [discriminate |]. intros err' [= ->]. reflexivity.
  - destruct internalFilename as [|c fn]; [congruence |]. simpl Go.is_empty.
    cbv iota. rewrite bool_decide_eq_true_2 by assumption.
    repeat split. discriminate.
Qed.

(** C8, amended: a successful [addMedia] adds the entry for the
    resolved filename, which was not a key before, and returns
    [path.Join] of [..], the folder and that filename; this is
    [../<folder>/<filename>] when the filename is a single path
    element. *)
Theorem addMedia_success
    (source internalFilename mediaFileFormat mediaFolderName path : string)
    (mediaMap mediaMap' : gmap string string) :
  addMedia source internalFilename mediaFileFormat mediaFolderName mediaMap
  = (path, None, mediaMap') ->
  exists name,
    (internalFilename <> "" -> name = internalFilename)
    /\ mediaMap !! name = None
    /\ mediaMap' = <[ name := source ]> mediaMap
    /\ mediaMap' !! name = Some source
    /\ path = Go.Join [ ".."; mediaFolderName; name ]
    /\ (In mediaFolderName
           [ CSSFolderName; FontFolderName; ImageFolderName; VideoFolderName ] ->
        single_element name = true ->
        path = "../" +:+ mediaFolderName +:+ "/" +:+ name).
Proof.
  unfold addMedia. destruct (checkMedia source); [discriminate |].
  match goal with
  | |- context [ bool_decide (is_Some (mediaMap !! ?n)) ] =>
      match n with
      | Go.Base _ => fail 1
      | _ => set (name := n)
      end
  end.
  destruct (bool_decide (is_Some (mediaMap !! name))) eqn:Hk; [discriminate |].
  intros [= <- <-]. exists name.
  apply bool_decide_eq_false in Hk.
  assert (Hnone : mediaMap !! name = None).
  { destruct (mediaMap !! name) eqn:E; [| reflexivity].
    exfalso. apply Hk. eauto. }
  repeat split; try assumption.
  - intros Hne. subst name.
    destruct internalFilename; [congruence | reflexivity].
  - apply lookup_insert_eq.
  - intros Hf Hs. apply Join_elements; [| assumption].
    simpl in Hf. destruct Hf as [<- | [<- | [<- | [<- | []]]]]; reflexivity.
Qed.

(** ** Section filenames *)

Lemma zeros_digits_value (k : nat) (d : Decimal.uint) :
  option_map N.of_uint (NilEmpty.uint_of_string (Go.zeros k +:+ NilEmpty.string_of_uint d))
  = Some (N.of_uint d).
Proof.
  induction k as [|k IH]; simpl.
  - now rewrite NilEmpty.usu.
  - destruct (NilEmpty.uint_of_string (Go.zeros k +:+ NilEmpty.string_of_uint d));
      simpl in *; [| discriminate].
    exact IH.
Qed.

(** [%04d] is read back: the zeros in front do not change the number. *)
Lemma fmt_04d_value (z : Z) :
  0 <= z ->
  option_map N.of_uint (NilEmpty.uint_of_string (Go.fmt_04d z)) = Some (Z.to_N z).
Proof.
  intros Hz. unfold Go.fmt_04d, Go.pad0, Go.digits.
  destruct (z <? 0) eqn:E; [apply Z.ltb_lt in E; lia |].
  rewrite zeros_digits_value. now rewrite DecimalN.Unsigned.of_to.
Qed.

Lemma fmt_04d_inj (i j : Z) :
  0 <= i -> 0 <= j -> Go.fmt_04d i = Go.fmt_04d j -> i = j.
Proof.
  intros Hi Hj H.
  pose proof (fmt_04d_value i Hi) as Ei. pose proof (fmt_04d_value j Hj) as Ej.
  rewrite H, Ej in Ei. injection Ei as Ei. lia.
Qed.

Lemma sectionFilename_eq (index : Z) :
  Go.Sprintf sectionFileFormat [ Go.Int index ]
  = "section" +:+ Go.fmt_04d index +:+ ".xhtml".
Proof. reflexivity. Qed.

Lemma sectionFilename_inj (i j : Z) :
  0 <= i -> 0 <= j ->
  Go.Sprintf sectionFileFormat [ Go.Int i ] = Go.Sprintf sectionFileFormat [ Go.Int j ] ->
  i = j.
Proof.
  intros Hi Hj. rewrite !sectionFilename_eq. intros H.
  apply (append_inv_l "section") in H. apply append_inv_r in H.
  now apply fmt_04d_inj.
Qed.

Lemma section_used_In (ss : list epubSection) (name : string) :
  section_used ss name = true <-> In name (map filename ss).
Proof.
  unfold section_used. rewrite existsb_exists, in_map_iff. split.
  - intros (s & Hs & E). apply String.eqb_eq in E. eauto.
  - intros (s & E & Hs). exists s. split; [assumption |]. now apply String.eqb_eq.
Qed.

(** The loop returns the name at [k] when [k] is the first index from
    [index] on whose name is free, and the fuel reaches it. *)
Lemma generateSectionFilename_first_free
    (ss : list epubSection) (fuel : nat) (index k : Z) :
  0 <= index <= k -> k < index + Z.of_nat fuel -> k <= Go.maxInt ->
  section_used ss (Go.Sprintf sectionFileFormat [ Go.Int k ]) = false ->
  (forall j, index <= j < k ->
             section_used ss (Go.Sprintf sectionFileFormat [ Go.Int j ]) = true) ->
  generateSectionFilename fuel ss index
  = Some (Go.Sprintf sectionFileFormat [ Go.Int k ]).
Proof.
  revert index. induction fuel as [|fuel IH]; intros index Hle Hlt Hmax Hfree Hused.
  - lia.
  - cbn [generateSectionFilename].
    destruct (Z.eq_dec index k) as [-> | Hne].
    + now rewrite Hfree.
    + rewrite Hused by lia.
      assert (Hw : Go.wrapInt (index + 1) = index + 1).
      { unfold Go.wrapInt, Go.maxInt in *.
        change (2 ^ 63) with 9223372036854775808 in *.
        change (2 ^ 64) with 18446744073709551616.
        rewrite Z.mod_small by lia. lia. }
      rewrite Hw. apply IH; try lia; [assumption |].
      intros j Hj. apply Hused. lia.
Qed.

(** Among the indices 1 to [n] either every name is taken or there is a
    first free one. *)
Lemma first_free_index (ss : list epubSection) (n : nat) :
  (forall j, 1 <= j <= Z.of_nat n ->
             section_used ss (Go.Sprintf sectionFileFormat [ Go.Int j ]) = true)
  \/ exists k, 1 <= k <= Z.of_nat n
       /\ section_used ss (Go.Sprintf sectionFileFormat [ Go.Int k ]) = false
       /\ forall j, 1 <= j < k ->
            section_used ss (Go.Sprintf sectionFileFormat [ Go.Int j ]) = true.
Proof.
  induction n as [|n IH].
  - left. intros j Hj. lia.
  - destruct IH as [Hall | (k & Hk & Hfree & Hbelow)].
    + destruct (section_used ss
                  (Go.Sprintf sectionFileFormat [ Go.Int (Z.of_nat (S n)) ])) eqn:E.
      * left. intros j Hj.
        destruct (Z.eq_dec j (Z.of_nat (S n))) as [-> | Hne]; [assumption |].
        apply Hall. lia.
      * right. exists (Z.of_nat (S n)). repeat split; try lia; [assumption |].
        intros j Hj. apply Hall. lia.
    + right. exists k. repeat split; try lia; assumption.
Qed.

(** There are more indices from 1 to [len + 1] than sections, and
    different indices give different names: one of the names is free. *)
Lemma not_all_used (ss : list epubSection) :
  ~ (forall j, 1 <= j <= Z.of_nat (S (List.length ss)) ->
               section_used ss (Go.Sprintf sectionFileFormat [ Go.Int j ]) = true).
Proof.
  intros Hall.
  set (names := (fun j => Go.Sprintf sectionFileFormat [ Go.Int j ])
                  <$> seqZ 1 (Z.of_nat (S (List.length ss)))).
  assert (Hnd : NoDup names).
  { apply NoDup_fmap_2_strong; [| apply NoDup_seqZ].
    intros x y Hx Hy. apply elem_of_seqZ in Hx, Hy.
    apply sectionFilename_inj; lia. }
  assert (Hsub : names ⊆+ (filename <$> ss)).
  { apply NoDup_submseteq; [assumption |].
    intros name Hname. apply list_elem_of_fmap in Hname as (j & -> & Hj).
    apply elem_of_seqZ in Hj. apply list_elem_of_In.
    apply section_used_In, Hall. lia. }
  apply submseteq_length in Hsub.
  unfold names in Hsub. rewrite !length_fmap, length_seqZ in Hsub. lia.
Qed.

(** C6: with no filename given, [addSection] names the new section
    [section%04d.xhtml] with the first index from 1 whose name no section
    has, and appends it; the call does not fail with
    [FilenameAlreadyUsedError].  The loop needs at most one turn more than
    there are sections. *)
Theorem addSection_generated_filename
    (fuel : nat) (e : Epub) (body sectionTitle internalCSSPath : string) :
  (List.length (sections e) < fuel)%nat ->
  Z.of_nat (List.length (sections e)) < Go.maxInt ->
  exists k,
    1 <= k <= Z.of_nat (List.length (sections e)) + 1
    /\ let name := Go.Sprintf sectionFileFormat [ Go.Int k ] in
       let x := setTitle (newXhtml body) sectionTitle in
       let x := if negb (Go.is_empty internalCSSPath)
                then setCSS x internalCSSPath else x in
       addSection fuel e body sectionTitle "" internalCSSPath
       = Some (name, None,
               set_sections (sections e ++ [ mkEpubSection name x ]) e)
       /\ ~ In name (map filename (sections e))
       /\ forall j, 1 <= j < k ->
            In (Go.Sprintf sectionFileFormat [ Go.Int j ])
               (map filename (sections e)).
Proof.
  intros Hfuel Hmax.
  destruct (first_free_index (sections e) (S (List.length (sections e))))
    as [Hall | (k & Hk & Hfree & Hbelow)].
  - exfalso. now apply (not_all_used (sections e)).
  - exists k. split; [lia |]. cbv zeta. split; [| split].
    + unfold addSection. cbn [Go.is_empty].
      rewrite (generateSectionFilename_first_free (sections e) fuel 1 k);
        try assumption; try lia.
      reflexivity.
    + intros Hin. apply section_used_In in Hin. congruence.
    + intros j Hj. apply section_used_In. now apply Hbelow.
Qed.

(** ** Generated names are single path elements *)

Lemma has_slash_app (a b : string) :
  Go.has_slash (a +:+ b) = Go.has_slash a || Go.has_slash b.
Proof.
  induction a as [|c a' IH]; simpl; [reflexivity |].
  now rewrite IH, orb_assoc.
Qed.

Lemma has_slash_zeros (n : nat) : Go.has_slash (Go.zeros n) = false.
Proof. induction n as [|n IH]; simpl; [reflexivity | exact IH]. Qed.

Lemma has_slash_digits (z : Z) : Go.has_slash (Go.digits z) = false.
Proof.
  unfold Go.digits. generalize (N.to_uint (Z.to_N z)).
  intros d. induction d; simpl; auto.
Qed.

Lemma has_slash_fmt_04d (z : Z) : Go.has_slash (Go.fmt_04d z) = false.
Proof.
  unfold Go.fmt_04d, Go.pad0.
  destruct (z <? 0); simpl;
    now rewrite has_slash_app, has_slash_zeros, has_slash_digits.
Qed.

Lemma single_element_section (index : Z) :
  single_element (Go.Sprintf sectionFileFormat [ Go.Int index ]) = true.
Proof.
  rewrite sectionFilename_eq. unfold single_element.
  cbn [Go.is_empty String.append Go.has_slash].
  rewrite has_slash_app, has_slash_fmt_04d. reflexivity.
Qed.

Lemma single_element_css (index : Z) :
  single_element (Go.Sprintf cssFileFormat [ Go.Int index; Go.Str ".css" ]) = true.
Proof.
  change (Go.Sprintf cssFileFormat [ Go.Int index; Go.Str ".css" ])
    with ("css" +:+ Go.fmt_04d index +:+ ".css" +:+ "").
  unfold single_element.
  cbn [Go.is_empty String.append Go.has_slash].
  rewrite has_slash_app, has_slash_fmt_04d. reflexivity.
Qed.

(** ** One call of [addSection] *)

Lemma generateSectionFilename_Some
    (ss : list epubSection) (fuel : nat) (index : Z) (name : string) :
  generateSectionFilename fuel ss index = Some name ->
  section_used ss name = false /\ single_element name = true.
Proof.
  revert index.
  induction fuel as [|fuel IH]; intros index; cbn [generateSectionFilename];
    [discriminate |].
  destruct (section_used ss (Go.Sprintf sectionFileFormat [ Go.Int index ])) eqn:E.
  - apply IH.
  - intros [= <-]. split; [assumption | apply single_element_section].
Qed.

Lemma removeSection_last (ss : list epubSection) (name : string) (x : xhtml) :
  section_used ss name = false ->
  removeSection name (ss ++ [ mkEpubSection name x ]) = ss.
Proof.
  induction ss as [|s ss' IH]; simpl.
  - intros _. now rewrite String.eqb_refl.
  - intros H. apply orb_false_iff in H as [Hs Hss]. rewrite Hs.
    now rewrite IH.
Qed.

Lemma count_cover_section (ss : list epubSection) (name : string) (x : xhtml) :
  section_used ss name = false ->
  List.filter (fun s => String.eqb (filename s) name)
    (ss ++ [ mkEpubSection name x ])
  = [ mkEpubSection name x ].
Proof.
  induction ss as [|s ss' IH]; simpl.
  - intros _. now rewrite String.eqb_refl.
  - intros H. apply orb_false_iff in H as [Hs Hss]. rewrite Hs. now apply IH.
Qed.

(** ** One call of [SetCover] *)

Lemma addMedia_error
    (source internalFilename mediaFileFormat mediaFolderName path : string)
    (mediaMap mediaMap' : gmap string string) (err : error) :
  addMedia source internalFilename mediaFileFormat mediaFolderName mediaMap
  = (path, Some err, mediaMap') ->
  mediaMap' = mediaMap.
Proof.
  unfold addMedia. destruct (checkMedia source); [now intros [= _ _ <-] |].
  match goal with
  | |- context [ if bool_decide ?P then (_, Some _, _) else _ ] =>
      destruct (bool_decide P)
  end; [now intros [= _ _ <-] | discriminate].
Qed.

(** A successful add registers the source under a name that was free. *)
Lemma addMedia_added
    (source internalFilename mediaFileFormat mediaFolderName path : string)
    (mediaMap mediaMap' : gmap string string) :
  addMedia source internalFilename mediaFileFormat mediaFolderName mediaMap
  = (path, None, mediaMap') ->
  exists name,
    (internalFilename <> "" -> name = internalFilename)
    /\ mediaMap !! name = None
    /\ mediaMap' = <[ name := source ]> mediaMap
    /\ path = Go.Join [ ".."; mediaFolderName; name ].
Proof.
  unfold addMedia. destruct (checkMedia source); [discriminate |].
  destruct internalFilename as [|c fn]; cbn [Go.is_empty].
  - match goal with
    | |- context [ if bool_decide (is_Some (mediaMap !! ?n)) then (_, Some _, _) else _ ] =>
        set (name := n)
    end.
    destruct (bool_decide (is_Some (mediaMap !! name))) eqn:Hk; [discriminate |].
    intros [= <- <-]. exists name. apply bool_decide_eq_false in Hk.
    repeat split; [congruence |].
    destruct (mediaMap !! name) eqn:E; [| reflexivity]. exfalso. apply Hk. eauto.
  - destruct (bool_decide (is_Some (mediaMap !! String c fn))) eqn:Hk;
      [discriminate |].
    intros [= <- <-]. exists (String c fn). apply bool_decide_eq_false in Hk.
    repeat split.
    destruct (mediaMap !! String c fn) eqn:E; [| reflexivity].
    exfalso. apply Hk. eauto.
Qed.

Lemma set_css_same (e : Epub) : set_css (css e) e = e.
Proof. now destruct e. Qed.

Lemma addCSS_error (e e' : Epub) (source internalFilename path : string)
    (err : error) :
  addCSS e source internalFilename = (path, Some err, e') -> e' = e.
Proof.
  unfold addCSS.
  destruct (addMedia source internalFilename cssFileFormat CSSFolderName (css e))
    as [[p o] m] eqn:E.
  intros [= -> -> <-]. apply addMedia_error in E. subst m. apply set_css_same.
Qed.

Lemma addCSS_named (e e' : Epub) (source internalFilename path : string) :
  internalFilename <> "" ->
  addCSS e source internalFilename = (path, None, e') ->
  css e !! internalFilename = None
  /\ path = Go.Join [ ".."; CSSFolderName; internalFilename ]
  /\ e' = set_css (<[ internalFilename := source ]> (css e)) e.
Proof.
  intros Hne. unfold addCSS.
  destruct (addMedia source internalFilename cssFileFormat CSSFolderName (css e))
    as [[p o] m] eqn:E.
  intros [= -> -> <-].
  apply addMedia_added in E as (name & Hname & Hnone & -> & ->).
  rewrite (Hname Hne) in *. auto.
Qed.

(** The stylesheet step either passes the given path on, or registers the
    default stylesheet under a name that was free. *)
Lemma coverCSS_Done (e e' : Epub) (internalCSSPath path : string) :
  coverCSS e internalCSSPath = Done (path, e') ->
  (Go.is_empty internalCSSPath = false /\ path = internalCSSPath /\ e' = e)
  \/ (Go.is_empty internalCSSPath = true
      /\ exists name,
          single_element name = true
          /\ css e !! name = None
          /\ path = Go.Join [ ".."; CSSFolderName; name ]
          /\ e' = set_css
                    (<[ name := EncodeBytes defaultCoverCSSContent ]> (css e))
                    (set_cover
                       (mkEpubCover (cssFilename (cover e))
                          (EncodeBytes defaultCoverCSSContent)
                          (imageFilename (cover e)) (xhtmlFilename (cover e)))
                       e)).
Proof.
  unfold coverCSS. destruct (Go.is_empty internalCSSPath).
  2:{ intros [= -> ->]. now left. }
  intros H. right. split; [reflexivity |].
  set (tmp := EncodeBytes defaultCoverCSSContent) in *.
  set (et := set_cover _ e) in *.
  destruct (addCSS et tmp defaultCoverCSSFilename) as [[p1 err1] e1] eqn:E1.
  destruct err1 as [[fn | src er] |]; cbn [isFilenameAlreadyUsed] in H.
  - apply addCSS_error in E1. subst e1.
    set (gen := Go.Sprintf cssFileFormat _) in H.
    destruct (addCSS et tmp gen) as [[p2 err2] e2] eqn:E2.
    destruct err2 as [[fn2 | src2 er2] |]; cbn in H; try discriminate.
    injection H as -> ->.
    assert (Hs : single_element gen = true) by apply single_element_css.
    apply addCSS_named in E2 as (Hnone & -> & ->).
    + exists gen. auto.
    + intros ->. discriminate.
  - cbn in H. discriminate.
  - cbn in H. injection H as -> ->.
    apply addCSS_named in E1 as (Hnone & -> & ->); [| discriminate].
    exists defaultCoverCSSFilename. auto.
Qed.

(** Reduce the projections of an updated publication, and nothing else. *)
Ltac epub_fields H :=
  cbn [set_cover set_css set_fonts set_images set_videos set_Pkg set_sections
       set_toc cover css fonts images videos lang desc ppd e_Pkg sections e_toc
       cssFilename cssTempFile imageFilename xhtmlFilename
       isFilenameAlreadyUsed Go.is_empty defaultCoverXhtmlFilename] in H.

(** What one completed call of [SetCover] leaves, in terms of the
    publication once the previous cover is torn down. *)
Lemma SetCover_Done (fuel : nat) (e e' : Epub)
    (internalImagePath internalCSSPath : string) :
  SetCover fuel e internalImagePath internalCSSPath = Done e' ->
  let er := removeCover e in
  exists x,
    section_used (sections er) (xhtmlFilename (cover e')) = false
    /\ sections e' = sections er ++ [ mkEpubSection (xhtmlFilename (cover e')) x ]
    /\ x_body x = Go.Sprintf defaultCoverBody [ Go.Str internalImagePath ]
    /\ Go.is_empty (xhtmlFilename (cover e')) = false
    /\ images e' = images er
    /\ imageFilename (cover e') = Go.Base internalImagePath
    /\ ((Go.is_empty internalCSSPath = false
         /\ css e' = css er
         /\ cssFilename (cover e') = Go.Base internalCSSPath)
        \/ (Go.is_empty internalCSSPath = true
            /\ css er !! cssFilename (cover e') = None
            /\ css e'
               = <[ cssFilename (cover e') := EncodeBytes defaultCoverCSSContent ]>
                   (css er))).
Proof.
  intros H. cbv zeta. unfold SetCover in H. set (er := removeCover e) in *.
  set (ei := set_Pkg _ (set_cover _ er)) in H.
  assert (Hei : sections ei = sections er /\ images ei = images er
                /\ css ei = css er
                /\ imageFilename (cover ei) = Go.Base internalImagePath)
    by (now destruct er).
  destruct Hei as (Hsec & Himg & Hcss & Hname).
  destruct (coverCSS ei internalCSSPath) as [[path ec] | |] eqn:Ec;
    try discriminate.
  apply coverCSS_Done in Ec.
  assert (Hec : sections ec = sections er /\ images ec = images er
                /\ imageFilename (cover ec) = Go.Base internalImagePath
                /\ ((Go.is_empty internalCSSPath = false
                     /\ css ec = css er /\ Go.Base path = Go.Base internalCSSPath)
                    \/ (Go.is_empty internalCSSPath = true
                        /\ css er !! Go.Base path = None
                        /\ css ec
                           = <[ Go.Base path := EncodeBytes defaultCoverCSSContent ]>
                               (css er)))).
  { destruct Ec as [(Hc & -> & ->) | (Hc & name & Hs & Hnone & -> & ->)].
    - repeat split; try assumption. left. now rewrite Hcss.
    - rewrite Base_Join_elements by (assumption || reflexivity).
      rewrite Hcss in *. destruct ei; simpl in *.
      repeat split; try assumption. right. auto. }
  clear Ec. destruct Hec as (Hsec' & Himg' & Hname' & Hcss').
  destruct ec as [cv ec_css ? ec_images ? ? ? ? ? ec_sections ?].
  cbn [sections images css cover imageFilename] in Hsec', Himg', Hname', Hcss'.
  epub_fields H.
  set (body := Go.Sprintf defaultCoverBody [ Go.Str internalImagePath ]) in *.
  set (x := if negb (Go.is_empty path)
            then setCSS (setTitle (newXhtml body) "") path
            else setTitle (newXhtml body) "").
  assert (Hx : x_body x = body) by (unfold x; now destruct (negb _)).
  unfold addSection in H at 1. epub_fields H.
  destruct (section_used ec_sections defaultCoverXhtmlFilename) eqn:Eu;
    epub_fields H.
  - unfold addSection in H. epub_fields H.
    destruct (generateSectionFilename fuel ec_sections 1) as [name |] eqn:Eg;
      epub_fields H; [| discriminate].
    injection H as <-.
    apply generateSectionFilename_Some in Eg as (Hfree & Hs).
    cbn. rewrite (Base_element _ Hs). subst ec_sections ec_images.
    exists x. fold x.
    pose proof (single_element_inv _ Hs) as (He & _).
    rewrite Hname'. auto 10.
  - injection H as <-.
    cbn. subst ec_sections ec_images.
    exists x. fold x. rewrite Hname'. auto 10.
Qed.

Lemma removeCover_none (e : Epub) :
  xhtmlFilename (cover e) = "" -> removeCover e = e.
Proof. unfold removeCover. now intros ->. Qed.

Lemma removeCover_some (e : Epub) :
  Go.is_empty (xhtmlFilename (cover e)) = false ->
  sections (removeCover e) = removeSection (xhtmlFilename (cover e)) (sections e)
  /\ images (removeCover e) = delete (imageFilename (cover e)) (images e)
  /\ css (removeCover e) = delete (cssFilename (cover e)) (css e).
Proof. unfold removeCover. intros ->. now destruct e. Qed.

Lemma is_empty_false (s : string) : Go.is_empty s = false <-> s <> "".
Proof. destruct s; simpl; split; congruence. Qed.

(** X22: [SetCover] called twice, with two images whose base names
    differ, the second registered once the cover the publication had at
    first is torn down, and with a second stylesheet that is either left
    out or registered then and not the stylesheet of the first call.  When
    both calls complete, the sections are those left by the first tear-down
    followed by one cover section, which shows the second image; the
    images are those left by the first tear-down without the first call's;
    the stylesheets are those left by the first call without the
    stylesheet of its cover, plus the default stylesheet when the second
    call registers it; and the stylesheet of the cover is registered. *)
Theorem SetCover_twice (fuel : nat) (e0 e1 e2 : Epub)
    (image1 image2 css1 css2 : string) :
  let er := removeCover e0 in
  is_Some (images er !! Go.Base image2) ->
  Go.Base image1 <> Go.Base image2 ->
  (css2 = ""
   \/ (is_Some (css er !! Go.Base css2)
       /\ (css1 <> "" -> Go.Base css2 <> Go.Base css1))) ->
  SetCover fuel e0 image1 css1 = Done e1 ->
  SetCover fuel e1 image2 css2 = Done e2 ->
  let coverName := xhtmlFilename (cover e2) in
  (exists x,
      sections e2 = sections er ++ [ mkEpubSection coverName x ]
      /\ x_body x = Go.Sprintf defaultCoverBody [ Go.Str image2 ]
      /\ List.filter (fun s => String.eqb (filename s) coverName) (sections e2)
         = [ mkEpubSection coverName x ])
  /\ section_used (sections er) coverName = false
  /\ images e2 = delete (Go.Base image1) (images er)
  /\ imageFilename (cover e2) = Go.Base image2
  /\ is_Some (images e2 !! imageFilename (cover e2))
  /\ images e2 !! imageFilename (cover e1) = None
  /\ css e2
     = (if Go.is_empty css2
        then <[ cssFilename (cover e2) := EncodeBytes defaultCoverCSSContent ]>
               (delete (cssFilename (cover e1)) (css e1))
        else delete (cssFilename (cover e1)) (css e1))
  /\ is_Some (css e2 !! cssFilename (cover e2)).
Proof.
  intros er Himg2 Hdiff Hcss2 H1 H2 coverName.
  apply SetCover_Done in H1
    as (x1 & Hu1 & Hs1 & _ & Hne1 & Hi1 & Hn1 & Hc1).
  fold er in Hu1, Hs1, Hi1, Hc1.
  apply SetCover_Done in H2
    as (x2 & Hu2 & Hs2 & Hb2 & _ & Hi2 & Hn2 & Hc2).
  destruct (removeCover_some e1 Hne1) as (Rs & Ri & Rc).
  rewrite Rs, Hs1, (removeSection_last _ _ _ Hu1) in Hu2, Hs2.
  rewrite Ri, Hi1, Hn1 in Hi2. rewrite Rc in Hc2.
  fold coverName in Hu2, Hs2.
  split; [| split; [| split; [| split; [| split; [| split; [| split]]]]]].
  - exists x2. split; [assumption |]. split; [assumption |].
    rewrite Hs2. now apply count_cover_section.
  - assumption.
  - assumption.
  - assumption.
  - rewrite Hn2, Hi2. rewrite lookup_delete_ne by assumption. assumption.
  - rewrite Hn1, Hi2. apply lookup_delete_eq.
  - destruct Hc2 as [(-> & -> & _) | (-> & _ & ->)]; reflexivity.
  - destruct Hc2 as [(He2 & -> & ->) | (_ & _ & ->)];
      [| rewrite lookup_insert_eq; eauto].
    destruct Hcss2 as [-> | (Hin & Hne)]; [discriminate |].
    destruct Hc1 as [(He1 & -> & ->) | (_ & Hfree & ->)].
    + apply is_empty_false in He1.
      rewrite lookup_delete_ne by (intros E; now apply (Hne He1)).
      assumption.
    + assert (Hd : cssFilename (cover e1) <> Go.Base css2).
      { intros E. rewrite E in Hfree. rewrite Hfree in Hin.
        now destruct Hin. }
      rewrite lookup_delete_ne, lookup_insert_ne by assumption. assumption.
Qed.

(** ** The meta entries under every call *)

Lemma indexToReplace_present (a : list PkgMeta) (m : PkgMeta) (i : Z) :
  In m a -> i <= indexToReplace a m i.
Proof.
  revert i. induction a as [|x a IH]; intros i Hin; simpl; [destruct Hin |].
  destruct (decide (x = m)) as [_ | Hne]; [lia |].
  destruct Hin as [-> | Hin]; [congruence |].
  specialize (IH (i + 1) Hin). lia.
Qed.

Lemma updateMeta_present (a : list PkgMeta) (m : PkgMeta) :
  In m a -> updateMeta a m = a.
Proof.
  intros Hin. destruct (updateMeta_cases a m) as [E | [_ E]]; [| exact E].
  exfalso. unfold updateMeta in E.
  pose proof (indexToReplace_present a m 0 Hin) as Hle.
  destruct (indexToReplace a m 0 =? -1) eqn:Ei; [apply Z.eqb_eq in Ei; lia |].
  apply (f_equal (@List.length _)) in E.
  rewrite length_insert, length_app in E. simpl in E. lia.
Qed.

Lemma updateMeta_elem (a : list PkgMeta) (m : PkgMeta) : m ∈ updateMeta a m.
Proof.
  destruct (decide (m ∈ a)) as [Hin | Hn].
  - rewrite updateMeta_present; [assumption | now apply list_elem_of_In].
  - rewrite updateMeta_absent.
    + apply elem_of_app. right. now apply list_elem_of_singleton.
    + intros Hin. apply Hn. now apply list_elem_of_In.
Qed.

Lemma updateMeta_prefix (a : list PkgMeta) (m : PkgMeta) :
  a `prefix_of` updateMeta a m.
Proof.
  destruct (decide (m ∈ a)) as [Hin | Hn].
  - rewrite updateMeta_present; [reflexivity | now apply list_elem_of_In].
  - rewrite updateMeta_absent.
    + now apply prefix_app_r.
    + intros Hin. apply Hn. now apply list_elem_of_In.
Qed.

Lemma updateMeta_NoDup (a : list PkgMeta) (m : PkgMeta) :
  NoDup a -> NoDup (updateMeta a m).
Proof.
  intros Hnd. destruct (decide (m ∈ a)) as [Hin | Hn].
  - rewrite updateMeta_present; [assumption | now apply list_elem_of_In].
  - rewrite updateMeta_absent
      by (intros Hin; apply Hn; now apply list_elem_of_In).
    apply NoDup_app. split; [assumption |]. split; [| apply NoDup_singleton].
    intros x Hx Hx'. apply list_elem_of_singleton in Hx'. now subst.
Qed.

(** X1: [updateMeta] appends the entry when no entry of the list equals
    it in all fields, and returns the list as it is when one does. *)
Theorem updateMeta_spec (a : list PkgMeta) (m : PkgMeta) :
  updateMeta a m = if decide (m ∈ a) then a else a ++ [ m ].
Proof.
  destruct (decide (m ∈ a)) as [Hin | Hn].
  - apply updateMeta_present. now apply list_elem_of_In.
  - apply updateMeta_absent. intros Hin. apply Hn. now apply list_elem_of_In.
Qed.

(** X2: [updateMeta] keeps every entry where it was, holds the entry
    written afterwards, and writing the same entry again changes
    nothing. *)
Theorem updateMeta_keeps (a : list PkgMeta) (m : PkgMeta) :
  a `prefix_of` updateMeta a m
  /\ m ∈ updateMeta a m
  /\ updateMeta (updateMeta a m) m = updateMeta a m.
Proof.
  split; [apply updateMeta_prefix |]. split; [apply updateMeta_elem |].
  apply updateMeta_present, list_elem_of_In, updateMeta_elem.
Qed.

(** A call leaves the meta entries alone or passes them through
    [updateMeta]. *)
Lemma Meta_call (p : Pkg) (c : PkgCall) :
  Meta (Metadata (xml (call p c))) = Meta (Metadata (xml p))
  \/ exists m, Meta (Metadata (xml (call p c)))
               = updateMeta (Meta (Metadata (xml p))) m.
Proof.
  destruct p as [[u v md items sp]].
  destruct c; cbn -[updateMeta creatorId]; eauto.
Qed.

Lemma calls_app (cs1 cs2 : list PkgCall) (p : Pkg) :
  calls (cs1 ++ cs2) p = calls cs2 (calls cs1 p).
Proof. apply fold_left_app. Qed.

(** X3: whatever is called on a new package document, no two of its
    meta entries are equal in all fields. *)
Theorem calls_Meta_NoDup (cs : list PkgCall) :
  NoDup (Meta (Metadata (xml (calls cs NewPkg)))).
Proof.
  induction cs as [|c cs IH] using rev_ind; [constructor |].
  rewrite calls_app. cbn [calls fold_left].
  destruct (Meta_call (calls cs NewPkg) c) as [-> | [m ->]];
    [assumption | now apply updateMeta_NoDup].
Qed.

(** X8: the manifest and the spine list what [AddToManifest] and
    [AddToSpine] were called with, in the order of the calls and with
    repeated ids kept; no other call changes them. *)
Theorem calls_manifest_spine (cs : list PkgCall) (p : Pkg) :
  ManifestItems (xml (calls cs p))
  = ManifestItems (xml p) ++ flat_map manifest_item_of cs
  /\ Items (Spine (xml (calls cs p)))
     = Items (Spine (xml p)) ++ flat_map spine_item_of cs.
Proof.
  revert p. induction cs as [|c cs IH]; intros p; cbn [calls fold_left flat_map].
  - now rewrite !app_nil_r.
  - fold (calls cs (call p c)). destruct (IH (call p c)) as [-> ->].
    rewrite !app_assoc.
    destruct p as [[u v md items sp]].
    destruct c; cbn -[updateMeta creatorId]; rewrite ?app_nil_r; auto.
Qed.

(** ** Ids of creators and identifiers under every call *)

Lemma fmt_d_inj (i j : Z) : 0 <= i -> 0 <= j -> Go.fmt_d i = Go.fmt_d j -> i = j.
Proof.
  intros Hi Hj. unfold Go.fmt_d, Go.digits.
  destruct (i <? 0) eqn:Ei; [apply Z.ltb_lt in Ei; lia |].
  destruct (j <? 0) eqn:Ej; [apply Z.ltb_lt in Ej; lia |].
  intros H. apply (f_equal NilEmpty.uint_of_string) in H.
  rewrite !NilEmpty.usu in H. injection H as H.
  apply DecimalN.Unsigned.to_uint_inj in H. lia.
Qed.

Lemma creator_name_inj (i j : nat) :
  "creator" +:+ Go.fmt_d (Z.of_nat i) = "creator" +:+ Go.fmt_d (Z.of_nat j) ->
  i = j.
Proof.
  intros H. apply append_inv_l in H. apply fmt_d_inj in H; lia.
Qed.

(** What a call does to the creators, the identifiers and the meta
    entries: nothing but a possible [updateMeta], or one creator with its
    role entry, or one identifier with its type entry. *)
Lemma call_effect (p : Pkg) (c : PkgCall) :
  let md := Metadata (xml p) in
  let md' := Metadata (xml (call p c)) in
  UniqueIdentifier (xml (call p c)) = UniqueIdentifier (xml p)
  /\ ((Creator md' = Creator md /\ Identifier md' = Identifier md
       /\ (Meta md' = Meta md \/ exists m, Meta md' = updateMeta (Meta md) m))
      \/ (exists name role,
             Creator md' = Creator md ++ [ mkPkgCreator (creatorId p) name ]
             /\ Identifier md' = Identifier md
             /\ Meta md' = updateMeta (Meta md) (roleMeta (creatorId p) role))
      \/ (exists value typeSchema typeContent,
             Creator md' = Creator md
             /\ Identifier md' = Identifier md ++ [ mkPkgIdentifier (creatorId p) value ]
             /\ Meta md'
                = updateMeta (Meta md)
                    (identifierMeta (creatorId p) typeSchema typeContent))).
Proof.
  destruct p as [[u v md items sp]].
  destruct c; cbn -[updateMeta creatorId]; (split; [reflexivity |]);
    try (left; repeat split; eauto; fail).
  - right. left. eauto.
  - right. left. eauto.
  - right. right. eauto 6.
Qed.

(** X4: whatever is called on a new package document, the creator at
    position i has the id [creator<i>], so no two creators share an
    id. *)
Theorem calls_creator_ids (cs : list PkgCall) :
  let creators := Creator (Metadata (xml (calls cs NewPkg))) in
  creator_ID <$> creators
  = (fun i => "creator" +:+ Go.fmt_d (Z.of_nat i)) <$> seq 0 (List.length creators)
  /\ NoDup (creator_ID <$> creators).
Proof.
  cbv zeta.
  assert (H : creator_ID <$> Creator (Metadata (xml (calls cs NewPkg)))
              = (fun i => "creator" +:+ Go.fmt_d (Z.of_nat i))
                  <$> seq 0 (List.length (Creator (Metadata (xml (calls cs NewPkg)))))).
  { induction cs as [|c cs IH] using rev_ind; [reflexivity |].
    rewrite calls_app. cbn [calls fold_left]. fold (calls cs NewPkg).
    destruct (call_effect (calls cs NewPkg) c)
      as (_ & [(-> & _) | [(name & role & -> & _) | (v & ts & tc & -> & _)]]);
      try exact IH.
    rewrite length_app, Nat.add_1_r, seq_S, !fmap_app, <- IH.
    cbn [fmap list_fmap creator_ID]. now rewrite creatorId_eq. }
  split; [exact H |]. rewrite H.
  apply NoDup_fmap_2_strong; [| apply NoDup_seq].
  intros x y _ _. apply creator_name_inj.
Qed.

(** X5: whatever is called on a new package document, every creator has
    a role entry in the MARC relators scheme that refines its id, and
    every identifier has an identifier-type entry that refines its id. *)
Theorem calls_cross_references (cs : list PkgCall) :
  let md := Metadata (xml (calls cs NewPkg)) in
  (forall c, c ∈ Creator md -> exists role, roleMeta (creator_ID c) role ∈ Meta md)
  /\ (forall i, i ∈ Identifier md ->
        exists typeSchema typeContent,
          identifierMeta (identifier_ID i) typeSchema typeContent ∈ Meta md).
Proof.
  cbv zeta. induction cs as [|c cs IH] using rev_ind.
  - split; intros x Hx; cbn in Hx; now apply elem_of_nil in Hx.
  - rewrite calls_app. cbn [calls fold_left]. fold (calls cs NewPkg).
    destruct IH as [IHc IHi].
    set (p := calls cs NewPkg) in *.
    assert (Hkeep : forall m x, x ∈ Meta (Metadata (xml p)) ->
                                x ∈ updateMeta (Meta (Metadata (xml p))) m).
    { intros m x Hx. destruct (updateMeta_prefix (Meta (Metadata (xml p))) m)
        as [k ->]. apply elem_of_app. now left. }
    destruct (call_effect p c)
      as (_ & [(-> & -> & Hm) | [(name & role & -> & -> & ->)
                                | (v & ts & tc & -> & -> & ->)]]).
    + destruct Hm as [-> | [m ->]]; [now split |].
      split.
      * intros x Hx. destruct (IHc x Hx) as [r Hr]. eauto.
      * intros x Hx. destruct (IHi x Hx) as (ts & tc & Hr). eauto.
    + split.
      * intros x Hx. apply elem_of_app in Hx as [Hx | Hx].
        -- destruct (IHc x Hx) as [r Hr]. eauto.
        -- apply list_elem_of_singleton in Hx as ->. exists role.
           apply updateMeta_elem.
      * intros x Hx. destruct (IHi x Hx) as (ts & tc & Hr). eauto.
    + split.
      * intros x Hx. destruct (IHc x Hx) as [r Hr]. eauto.
      * intros x Hx. apply elem_of_app in Hx as [Hx | Hx].
        -- destruct (IHi x Hx) as (ts' & tc' & Hr). eauto.
        -- apply list_elem_of_singleton in Hx as ->. exists ts, tc.
           apply updateMeta_elem.
Qed.

(** X7: whatever is called on a new package document, the
    [unique-identifier] attribute stays [pub-id] and no identifier has
    that id. *)
Theorem calls_unique_identifier (cs : list PkgCall) :
  let r := xml (calls cs NewPkg) in
  UniqueIdentifier r = "pub-id"
  /\ Forall (fun i => identifier_ID i <> UniqueIdentifier r)
       (Identifier (Metadata r)).
Proof.
  cbv zeta. induction cs as [|c cs IH] using rev_ind.
  - split; [reflexivity | constructor].
  - rewrite calls_app. cbn [calls fold_left]. fold (calls cs NewPkg).
    destruct IH as [IHu IHf].
    destruct (call_effect (calls cs NewPkg) c)
      as (-> & [(_ & -> & _) | [(name & role & _ & -> & _)
                               | (v & ts & tc & _ & -> & _)]]);
      try (split; assumption).
    split; [assumption |]. apply Forall_app. split; [assumption |].
    constructor; [| constructor]. cbn [identifier_ID].
    rewrite IHu, creatorId_eq. discriminate.
Qed.

(** X6: authors added one after the other to a new package document give
    one creator each, in order, with the ids [creator0], [creator1], ...,
    and one role entry each, in the same order, refining those ids. *)
Theorem AddAuthor_sequence (authors : list (string * string)) :
  let md := Metadata
              (xml (calls (map (fun ar => CallAddAuthor ar.1 ar.2) authors) NewPkg)) in
  Creator md
  = imap (fun i ar => mkPkgCreator ("creator" +:+ Go.fmt_d (Z.of_nat i)) ar.1)
      authors
  /\ Meta md
     = imap (fun i ar => roleMeta ("creator" +:+ Go.fmt_d (Z.of_nat i)) ar.2)
         authors.
Proof.
  cbv zeta. induction authors as [|[a r] authors IH] using rev_ind;
    [split; reflexivity |].
  rewrite map_app, calls_app. cbn [map calls fold_left call fst snd].
  destruct IH as [IHc IHm].
  set (p := calls (map (fun ar => CallAddAuthor ar.1 ar.2) authors) NewPkg) in *.
  assert (Hid : creatorId p
                = "creator" +:+ Go.fmt_d (Z.of_nat (List.length authors))).
  { rewrite creatorId_eq. unfold Go.len_list. now rewrite IHc, length_imap. }
  assert (HC : Creator (Metadata (xml (AddAuthor p a r)))
               = Creator (Metadata (xml p)) ++ [ mkPkgCreator (creatorId p) a ]).
  { now destruct p as [[u v md items sp]]. }
  assert (HM : Meta (Metadata (xml (AddAuthor p a r)))
               = updateMeta (Meta (Metadata (xml p))) (roleMeta (creatorId p) r)).
  { now destruct p as [[u v md items sp]]. }
  rewrite HC, HM, IHc, IHm, Hid, !imap_app. cbn [imap fst snd].
  rewrite Nat.add_0_r. split; [reflexivity |].
  apply updateMeta_absent. intros Hin. apply list_elem_of_In in Hin.
  apply elem_of_lookup_imap_1 in Hin as (i & [a' r'] & E & Hi).
  apply lookup_lt_Some in Hi. injection E as E _.
  apply fmt_d_inj in E; lia.
Qed.

(** ** More on the resource registry *)

(** X9: [addMedia] never removes or overwrites an entry: the map it
    leaves contains the one it was given.  On success the map has one
    entry more; on an error it is unchanged and the path returned is
    empty. *)
Theorem addMedia_keeps_entries
    (source internalFilename mediaFileFormat mediaFolderName : string)
    (mediaMap : gmap string string) :
  let r := addMedia source internalFilename mediaFileFormat mediaFolderName
             mediaMap in
  mediaMap ⊆ r.2
  /\ match r.1.2 with
     | None => size r.2 = S (size mediaMap)
     | Some _ => r.2 = mediaMap /\ r.1.1 = ""
     end.
Proof.
  cbv zeta.
  destruct (addMedia source internalFilename mediaFileFormat mediaFolderName
              mediaMap) as [[p [err |]] m'] eqn:E; cbn [fst snd].
  - pose proof E as E'. apply addMedia_error in E'. subst m'.
    split; [reflexivity |]. split; [reflexivity |].
    revert E. unfold addMedia. destruct (checkMedia source); [now intros [= <- _] |].
    match goal with
    | |- context [ if bool_decide ?P then (_, Some _, _) else _ ] =>
        destruct (bool_decide P)
    end; [now intros [= <- _] | discriminate].
  - apply addMedia_added in E as (name & _ & Hnone & -> & _).
    split; [now apply insert_subseteq | now apply map_size_insert_None].
Qed.

(** X10: with no filename given and a source that passes the check, the
    add succeeds whenever the name generated from the size of the map is
    free; the file is registered under the base name of the source or
    under the generated name. *)
Theorem addMedia_generated_name_free
    (source mediaFileFormat mediaFolderName : string)
    (mediaMap : gmap string string) :
  let generated :=
    Go.Sprintf mediaFileFormat
      [ Go.Int (Go.wrapInt (Z.of_nat (size mediaMap) + 1));
        Go.Str (ToLower (Go.Ext source)) ] in
  checkMedia source = None ->
  mediaMap !! generated = None ->
  exists name,
    (name = Go.Base source \/ name = generated)
    /\ addMedia source "" mediaFileFormat mediaFolderName mediaMap
       = (Go.Join [ ".."; mediaFolderName; name ], None,
          <[ name := source ]> mediaMap).
Proof.
  intros generated Hc Hfree. unfold addMedia. rewrite Hc. cbn [Go.is_empty].
  fold generated.
  destruct (bool_decide (is_Some (mediaMap !! Go.Base source))) eqn:Eb.
  - rewrite !orb_true_r. exists generated. split; [now right |].
    rewrite bool_decide_eq_false_2; [reflexivity |].
    rewrite Hfree. now intros [? ?].
  - rewrite orb_false_r.
    destruct ((255 <? Z.of_nat (String.length (Go.Base source)))
              || negb (Go.ValidPath (Go.Base source))).
    + exists generated. split; [now right |].
      rewrite bool_decide_eq_false_2; [reflexivity |].
      rewrite Hfree. now intros [? ?].
    + exists (Go.Base source). split; [now left |]. now rewrite Eb.
Qed.

(** X11: with no filename given, [FilenameAlreadyUsedError] is only ever
    reported for the generated name, which is then a key of the map, and
    only once the base name of the source was turned down (too long, not
    a valid path, or taken). *)
Theorem addMedia_generated_failure
    (source mediaFileFormat mediaFolderName path name : string)
    (mediaMap mediaMap' : gmap string string) :
  addMedia source "" mediaFileFormat mediaFolderName mediaMap
  = (path, Some (FilenameAlreadyUsedError name), mediaMap') ->
  name = Go.Sprintf mediaFileFormat
           [ Go.Int (Go.wrapInt (Z.of_nat (size mediaMap) + 1));
             Go.Str (ToLower (Go.Ext source)) ]
  /\ is_Some (mediaMap !! name)
  /\ ((255 <? Z.of_nat (String.length (Go.Base source)))
      || negb (Go.ValidPath (Go.Base source))
      || bool_decide (is_Some (mediaMap !! Go.Base source))) = true
  /\ mediaMap' = mediaMap.
Proof.
  unfold addMedia. destruct (checkMedia source); [discriminate |].
  cbn [Go.is_empty].
  destruct ((255 <? Z.of_nat (String.length (Go.Base source)))
            || negb (Go.ValidPath (Go.Base source))
            || bool_decide (is_Some (mediaMap !! Go.Base source))) eqn:Eu.
  - match goal with
    | |- context [ if bool_decide ?P then (_, Some _, _) else _ ] =>
        destruct (bool_decide P) eqn:Eb
    end; [| discriminate].
    intros [= _ <- <-]. apply bool_decide_eq_true in Eb. auto.
  - apply orb_false_iff in Eu as [_ Eb]. rewrite Eb. discriminate.
Qed.

(** ** What every call keeps *)

Lemma section_used_elem (ss : list epubSection) (name : string) :
  section_used ss name = false <-> name ∉ filename <$> ss.
Proof.
  induction ss as [|s ss IH]; cbn.
  - split; [intros _; apply not_elem_of_nil | reflexivity].
  - rewrite orb_false_iff, not_elem_of_cons, IH, String.eqb_neq.
    split; intros [H1 H2]; split; auto.
Qed.

Lemma removeSection_sublist (name : string) (ss : list epubSection) :
  (filename <$> removeSection name ss) `sublist_of` (filename <$> ss).
Proof.
  induction ss as [|s ss IH]; cbn; [constructor |].
  destruct (String.eqb (filename s) name); cbn.
  - now apply sublist_cons.
  - now apply sublist_skip.
Qed.

(** Removing the first section of a name removes the only one when no
    two sections share a filename. *)
Lemma removeSection_NoDup (name : string) (ss : list epubSection) :
  NoDup (filename <$> ss) -> name ∉ filename <$> removeSection name ss.
Proof.
  induction ss as [|s ss IH]; cbn; [intros _; apply not_elem_of_nil |].
  intros Hn. apply NoDup_cons in Hn as [Hs Hn].
  destruct (String.eqb (filename s) name) eqn:E; cbn.
  - apply String.eqb_eq in E. now subst.
  - apply String.eqb_neq in E. apply not_elem_of_cons. split; [congruence |].
    now apply IH.
Qed.

(** A call of [addSection] that returns either reports an error and
    leaves the publication alone, or appends one section under a filename
    no section had. *)
Lemma addSection_Some (fuel : nat) (e e' : Epub)
    (body sectionTitle internalFilename internalCSSPath p : string)
    (err : option error) :
  addSection fuel e body sectionTitle internalFilename internalCSSPath
  = Some (p, err, e') ->
  (e' = e /\ err = Some (FilenameAlreadyUsedError internalFilename) /\ p = ""
   /\ section_used (sections e) internalFilename = true)
  \/ (exists x,
         err = None
         /\ section_used (sections e) p = false
         /\ Go.is_empty p = false
         /\ e' = set_sections (sections e ++ [ mkEpubSection p x ]) e).
Proof.
  unfold addSection. destruct internalFilename as [|c fn]; cbn [Go.is_empty].
  - destruct (generateSectionFilename fuel (sections e) 1) as [name |] eqn:Eg;
      [| discriminate].
    intros [= <- <- <-]. right.
    apply generateSectionFilename_Some in Eg as (Hfree & Hs).
    apply single_element_inv in Hs as (He & _). eauto 6.
  - destruct (section_used (sections e) (String c fn)) eqn:Eu.
    + intros [= <- <- <-]. now left.
    + intros [= <- <- <-]. right. eauto 6.
Qed.

Lemma removeCover_frame (e : Epub) :
  (fonts (removeCover e), videos (removeCover e), lang (removeCover e),
   desc (removeCover e), ppd (removeCover e), e_toc (removeCover e),
   e_Pkg (removeCover e), cover (removeCover e))
  = (fonts e, videos e, lang e, desc e, ppd e, e_toc e, e_Pkg e, cover e).
Proof. unfold removeCover. destruct (negb _); now destruct e. Qed.

Lemma SetCover_unchanged (fuel : nat) (e e' : Epub)
    (internalImagePath internalCSSPath : string) :
  SetCover fuel e internalImagePath internalCSSPath = Done e' ->
  (fonts e', videos e', lang e', desc e', ppd e', e_toc e')
  = (fonts e, videos e, lang e, desc e, ppd e, e_toc e)
  /\ e_Pkg e' = Pkg_SetCover (e_Pkg e) (Go.Base internalImagePath).
Proof.
  intros H. unfold SetCover in H.
  pose proof (removeCover_frame e) as Fr. set (er := removeCover e) in *.
  set (ei := set_Pkg _ (set_cover _ er)) in H.
  assert (Fi : (fonts ei, videos ei, lang ei, desc ei, ppd ei, e_toc ei)
               = (fonts e, videos e, lang e, desc e, ppd e, e_toc e)
               /\ e_Pkg ei = Pkg_SetCover (e_Pkg e) (Go.Base internalImagePath)).
  { injection Fr as F1 F2 F3 F4 F5 F6 F7 F8.
    unfold ei. destruct er. cbn in *. now subst. }
  clearbody ei. clear Fr er.
  destruct (coverCSS ei internalCSSPath) as [[path ec] | |] eqn:Ec;
    try discriminate.
  assert (Fc : (fonts ec, videos ec, lang ec, desc ec, ppd ec, e_toc ec, e_Pkg ec)
               = (fonts ei, videos ei, lang ei, desc ei, ppd ei, e_toc ei, e_Pkg ei)).
  { apply coverCSS_Done in Ec
      as [(_ & _ & ->) | (_ & name & _ & _ & _ & ->)];
      [reflexivity | now destruct ei]. }
  clear Ec.
  set (eb := set_cover _ ec) in H.
  assert (Fb : (fonts eb, videos eb, lang eb, desc eb, ppd eb, e_toc eb, e_Pkg eb)
               = (fonts ei, videos ei, lang ei, desc ei, ppd ei, e_toc ei, e_Pkg ei)).
  { unfold eb. destruct ec. exact Fc. }
  clearbody eb. clear Fc.
  assert (Hs : forall f ea bd t fn cs q o ea',
             addSection f ea bd t fn cs = Some (q, o, ea') ->
             (fonts ea', videos ea', lang ea', desc ea', ppd ea', e_toc ea',
              e_Pkg ea')
             = (fonts ea, videos ea, lang ea, desc ea, ppd ea, e_toc ea,
                e_Pkg ea)).
  { intros f ea bd t fn cs q o ea' E.
    apply addSection_Some in E as [(-> & _) | (x & _ & _ & _ & ->)];
      [reflexivity | now destruct ea]. }
  destruct (addSection fuel eb _ "" defaultCoverXhtmlFilename path)
    as [[[cp o] e1] |] eqn:E1; [| discriminate].
  apply Hs in E1.
  destruct (isFilenameAlreadyUsed o).
  - destruct (addSection fuel e1 _ "" "" path) as [[[cp2 o2] e2] |] eqn:E2;
      [| discriminate].
    apply Hs in E2. destruct (isFilenameAlreadyUsed o2); [discriminate |].
    injection H as <-. destruct e2, e1, eb, ei. cbn in *.
    destruct Fi as [Fi ->]. split; congruence.
  - injection H as <-. destruct e1, eb, ei. cbn in *.
    destruct Fi as [Fi ->]. split; congruence.
Qed.

(** X16: a call of [SetCover] that completes leaves the fonts, the
    videos, the language, description and direction fields and the table
    of contents as they were; it changes the package document by
    [Pkg.SetCover] with the base name of the image path and in no other
    way, so the entry [name=cover] with that base name as content is among
    the meta entries. *)
Theorem SetCover_frame (fuel : nat) (e e' : Epub)
    (internalImagePath internalCSSPath : string) :
  SetCover fuel e internalImagePath internalCSSPath = Done e' ->
  (fonts e', videos e', lang e', desc e', ppd e', e_toc e')
  = (fonts e, videos e, lang e, desc e, ppd e, e_toc e)
  /\ e_Pkg e' = Pkg_SetCover (e_Pkg e) (Go.Base internalImagePath)
  /\ mkPkgMeta "" "" "" "" "" "cover" (Go.Base internalImagePath)
     ∈ Meta (Metadata (xml (e_Pkg e'))).
Proof.
  intros H. apply SetCover_unchanged in H as [Hf Hp].
  split; [exact Hf |]. split; [exact Hp |]. rewrite Hp.
  destruct (e_Pkg e) as [[u v md items sp]]. cbn -[updateMeta].
  apply updateMeta_elem.
Qed.

Lemma removeCover_sections_sublist (e : Epub) :
  (filename <$> sections (removeCover e)) `sublist_of` (filename <$> sections e).
Proof.
  unfold removeCover. destruct (negb _); [| reflexivity].
  destruct e; cbn. apply removeSection_sublist.
Qed.

(** ** Publications built by calls *)

Lemma addSection_generated_no_error (fuel : nat) (e e' : Epub)
    (body sectionTitle internalCSSPath p : string) (err : option error) :
  addSection fuel e body sectionTitle "" internalCSSPath = Some (p, err, e') ->
  err = None.
Proof.
  unfold addSection. cbn [Go.is_empty].
  destruct (generateSectionFilename fuel (sections e) 1); [| discriminate].
  now intros [= _ <- _].
Qed.

(** [SetCover] panics in its stylesheet part only: [addSection] asked to
    generate a filename reports none as used. *)
Lemma SetCover_Panic (fuel : nat) (e : Epub)
    (internalImagePath internalCSSPath msg : string) (err : option error) :
  SetCover fuel e internalImagePath internalCSSPath = Panic msg err ->
  let er := removeCover e in
  let c := cover er in
  coverCSS
    (set_Pkg (Pkg_SetCover (e_Pkg er) (Go.Base internalImagePath))
       (set_cover (mkEpubCover (cssFilename c) (cssTempFile c)
                     (Go.Base internalImagePath) (xhtmlFilename c)) er))
    internalCSSPath
  = Panic msg err.
Proof.
  intros H. cbv zeta. unfold SetCover in H.
  change (imageFilename (cover (set_cover ?c ?e))) with (imageFilename c) in H.
  cbn [imageFilename e_Pkg set_cover] in H.
  destruct (coverCSS _ internalCSSPath) as [[path ec] | m o |] eqn:Ec;
    [| now injection H as -> -> | discriminate].
  exfalso.
  destruct (addSection fuel _ _ "" defaultCoverXhtmlFilename path)
    as [[[cp o] e1] |] eqn:E1; [| discriminate].
  destruct (isFilenameAlreadyUsed o); [| discriminate].
  destruct (addSection fuel e1 _ "" "" path) as [[[cp2 o2] e2] |] eqn:E2;
    [| discriminate].
  apply addSection_generated_no_error in E2. subst o2. discriminate.
Qed.

(** The stylesheet part panics only when no stylesheet was given and the
    calls of [addCSS] it made failed, which leave the publication as it
    was: what is left has the data URL recorded, and nothing else. *)
Lemma coverCSS_Panic (e : Epub) (internalCSSPath msg : string)
    (err : option error) :
  coverCSS e internalCSSPath = Panic msg err ->
  internalCSSPath = ""
  /\ coverCSS_at_panic e
     = set_cover (mkEpubCover (cssFilename (cover e))
                    (EncodeBytes defaultCoverCSSContent)
                    (imageFilename (cover e)) (xhtmlFilename (cover e))) e.
Proof.
  unfold coverCSS, coverCSS_at_panic.
  destruct internalCSSPath as [|a s]; cbn [Go.is_empty]; [| discriminate].
  intros H. split; [reflexivity |].
  set (tmp := EncodeBytes defaultCoverCSSContent) in *.
  set (et := set_cover _ e) in *.
  destruct (addCSS et tmp defaultCoverCSSFilename) as [[p1 err1] e1] eqn:E1.
  destruct err1 as [[fn | src er] |]; cbn [isFilenameAlreadyUsed] in *.
  - apply addCSS_error in E1. subst e1.
    set (gen := Go.Sprintf cssFileFormat _) in *.
    destruct (addCSS et tmp gen) as [[p2 err2] e2] eqn:E2.
    destruct err2 as [er2 |]; [| cbn in H; discriminate].
    now apply addCSS_error in E2.
  - now apply addCSS_error in E1.
  - cbn in H. discriminate.
Qed.

(** What a call of [SetCover] that panics leaves. *)
Lemma SetCover_at_panic_eq (fuel : nat) (e : Epub)
    (internalImagePath internalCSSPath msg : string) (err : option error) :
  SetCover fuel e internalImagePath internalCSSPath = Panic msg err ->
  let er := removeCover e in
  internalCSSPath = ""
  /\ SetCover_at_panic fuel e internalImagePath internalCSSPath
     = set_Pkg (Pkg_SetCover (e_Pkg er) (Go.Base internalImagePath))
         (set_cover (mkEpubCover (cssFilename (cover er))
                       (EncodeBytes defaultCoverCSSContent)
                       (Go.Base internalImagePath) (xhtmlFilename (cover er)))
            er).
Proof.
  intros H. apply SetCover_Panic in H. cbv zeta in *.
  unfold SetCover_at_panic.
  change (imageFilename (cover (set_cover ?c ?e))) with (imageFilename c).
  cbn [imageFilename e_Pkg set_cover].
  rewrite H. apply coverCSS_Panic in H as [-> ->].
  split; [reflexivity |]. now destruct (removeCover e).
Qed.

(** The sections and the cover after one call that returns, case by
    case. *)
Lemma returns_sections (e e' : Epub) :
  returns e e' ->
  (sections e' = sections e /\ cover e' = cover e)
  \/ (exists s,
         sections e' = sections e ++ [ s ] /\ cover e' = cover e
         /\ filename s ∉ filename <$> sections e)
  \/ (exists s,
         sections e' = sections (removeCover e) ++ [ s ]
         /\ xhtmlFilename (cover e') = filename s
         /\ filename s ∉ filename <$> sections (removeCover e)).
Proof.
  intros Hstep.
  destruct Hstep as [e s f p err e' H | e s f p err e' H | e s f p err e' H
                    | e s f p err e' H | fuel e b t f c p err e' H
                    | fuel e i c e' H | e t | e c].
  - left. revert H. unfold AddCSS, addCSS.
    destruct (addMedia _ _ _ _ _) as [[? ?] ?]. intros [= _ _ <-]. now destruct e.
  - left. revert H. unfold AddFont.
    destruct (addMedia _ _ _ _ _) as [[? ?] ?]. intros [= _ _ <-]. now destruct e.
  - left. revert H. unfold AddImage.
    destruct (addMedia _ _ _ _ _) as [[? ?] ?]. intros [= _ _ <-]. now destruct e.
  - left. revert H. unfold AddVideo.
    destruct (addMedia _ _ _ _ _) as [[? ?] ?]. intros [= _ _ <-]. now destruct e.
  - apply addSection_Some in H as [(-> & _) | (x & _ & Hfree & _ & ->)];
      [now left |].
    right. left. exists (mkEpubSection p x).
    apply section_used_elem in Hfree. now destruct e.
  - apply SetCover_Done in H as (x & Hfree & Hs & _).
    right. right. exists (mkEpubSection (xhtmlFilename (cover e')) x).
    apply section_used_elem in Hfree. auto.
  - left. now destruct e.
  - left. now destruct e.
Qed.

Lemma NoDup_snoc_fresh (names : list string) (name : string) :
  NoDup names -> name ∉ names -> NoDup (names ++ [ name ]).
Proof.
  intros Hn Hfree. apply NoDup_app. split; [assumption |].
  split; [| apply NoDup_singleton].
  intros x Hx Hx'. apply list_elem_of_singleton in Hx'. now subst.
Qed.

Lemma step_sections_NoDup (e e' : Epub) :
  step e e' ->
  NoDup (filename <$> sections e) -> NoDup (filename <$> sections e').
Proof.
  intros [e0 e1 Hr | fuel e0 i c msg err Hp] Hn.
  - destruct (returns_sections e0 e1 Hr)
      as [(-> & _) | [(s & -> & _ & Hfree) | (s & -> & _ & Hfree)]].
    + assumption.
    + rewrite fmap_app. now apply NoDup_snoc_fresh.
    + rewrite fmap_app. apply NoDup_snoc_fresh; [| assumption].
      eapply sublist_NoDup; [exact Hn | apply removeCover_sections_sublist].
  - apply SetCover_at_panic_eq in Hp as [_ ->]. cbn [sections set_Pkg set_cover].
    eapply sublist_NoDup; [exact Hn | apply removeCover_sections_sublist].
Qed.

(** X12: in every publication a program can build, also by going on
    after a call of [SetCover] that panicked, no two sections have the
    same filename. *)
Theorem reachable_sections (e : Epub) :
  reachable e -> NoDup (filename <$> sections e).
Proof.
  induction 1 as [uuid4 title | e e' Hr IH Hstep].
  - constructor.
  - now apply (step_sections_NoDup e e').
Qed.

Lemma settled_reachable (e : Epub) : settled e -> reachable e.
Proof.
  induction 1 as [uuid4 title | fuel e i c e' Hr H | e e' Hs IH Hr].
  - constructor.
  - apply (reachable_step e e' Hr). apply step_returns.
    now apply (returns_SetCover fuel e i c).
  - apply (reachable_step e e' IH). now apply step_returns.
Qed.

(** X20: while the latest call of [SetCover] has returned, the cover
    page it recorded is one of the sections: in every publication built
    from [NewEpub] (or from any publication a program can build, by a call
    of [SetCover] that returns) by calls that return, the filename of the
    cover page, once set, is the filename of a section. *)
Theorem settled_cover_page (e : Epub) :
  settled e ->
  reachable e
  /\ (xhtmlFilename (cover e) <> "" ->
      xhtmlFilename (cover e) ∈ filename <$> sections e).
Proof.
  intros Hs. split; [now apply settled_reachable |].
  induction Hs as [uuid4 title | fuel e i c e' Hr H | e e' Hs IH Hr].
  - intros H. now destruct H.
  - intros _. apply SetCover_Done in H as (x & _ & -> & _).
    rewrite fmap_app. apply elem_of_app. right. now apply list_elem_of_singleton.
  - destruct (returns_sections e e' Hr)
      as [(-> & ->) | [(s & -> & -> & _) | (s & -> & -> & _)]].
    + assumption.
    + intros Hc. rewrite fmap_app. apply elem_of_app. left. now apply IH.
    + intros _. rewrite fmap_app. apply elem_of_app. right.
      now apply list_elem_of_singleton.
Qed.

(** X21: a call of [SetCover] that panics had no stylesheet given, and
    leaves the publication with the previous cover torn down (its section,
    image and stylesheet removed), the base name of the new image
    recorded, in the cover and in the package document, and the data URL
    of the default stylesheet recorded; the stylesheet and the page of the
    cover stay those recorded for the previous cover, so a page that was
    listed before the call is listed no more. *)
Theorem SetCover_panic_state (fuel : nat) (e : Epub)
    (internalImagePath internalCSSPath msg : string) (err : option error) :
  SetCover fuel e internalImagePath internalCSSPath = Panic msg err ->
  let e' := SetCover_at_panic fuel e internalImagePath internalCSSPath in
  internalCSSPath = ""
  /\ (sections e', images e', css e') =
     (sections (removeCover e), images (removeCover e), css (removeCover e))
  /\ cover e'
     = mkEpubCover (cssFilename (cover e)) (EncodeBytes defaultCoverCSSContent)
         (Go.Base internalImagePath) (xhtmlFilename (cover e))
  /\ e_Pkg e' = Pkg_SetCover (e_Pkg e) (Go.Base internalImagePath)
  /\ (fonts e', videos e', lang e', desc e', ppd e', e_toc e')
     = (fonts e, videos e, lang e, desc e, ppd e, e_toc e)
  /\ (NoDup (filename <$> sections e) ->
      xhtmlFilename (cover e) <> "" ->
      xhtmlFilename (cover e') ∉ filename <$> sections e').
Proof.
  intros H e'. apply SetCover_at_panic_eq in H as [-> He']. cbv zeta in He'.
  subst e'. rewrite He'. clear He'.
  pose proof (removeCover_frame e) as Fr.
  injection Fr as F1 F2 F3 F4 F5 F6 F7 F8.
  cbn [sections images css cover e_Pkg fonts videos lang desc ppd e_toc
       set_Pkg set_cover xhtmlFilename].
  rewrite F1, F2, F3, F4, F5, F6, F7, F8.
  repeat (split; [reflexivity |]).
  intros Hn Hc. apply is_empty_false in Hc.
  destruct (removeCover_some e Hc) as (-> & _ & _).
  now apply removeSection_NoDup.
Qed.

(** The package document after one call is the package document before
    it, or that after one call of a method of [Pkg]. *)
Lemma returns_Pkg_calls (e e' : Epub) :
  returns e e' -> e_Pkg e' = e_Pkg e \/ exists c, e_Pkg e' = call (e_Pkg e) c.
Proof.
  intros Hstep.
  destruct Hstep as [e s f p err e' H | e s f p err e' H | e s f p err e' H
                    | e s f p err e' H | fuel e b t f c p err e' H
                    | fuel e i c e' H | e t | e c].
  - left. revert H. unfold AddCSS, addCSS.
    destruct (addMedia _ _ _ _ _) as [[? ?] ?]. intros [= _ _ <-]. now destruct e.
  - left. revert H. unfold AddFont.
    destruct (addMedia _ _ _ _ _) as [[? ?] ?]. intros [= _ _ <-]. now destruct e.
  - left. revert H. unfold AddImage.
    destruct (addMedia _ _ _ _ _) as [[? ?] ?]. intros [= _ _ <-]. now destruct e.
  - left. revert H. unfold AddVideo.
    destruct (addMedia _ _ _ _ _) as [[? ?] ?]. intros [= _ _ <-]. now destruct e.
  - left. apply addSection_Some in H as [(-> & _) | (x & _ & _ & _ & ->)];
      [reflexivity | now destruct e].
  - right. apply SetCover_unchanged in H as [_ ->].
    now exists (CallSetCover (Go.Base i)).
  - right. exists (CallSetTitle t). now destruct e.
  - right. exists c. now destruct e.
Qed.

Lemma SetCover_at_panic_Pkg (fuel : nat) (e : Epub)
    (internalImagePath internalCSSPath msg : string) (err : option error) :
  SetCover fuel e internalImagePath internalCSSPath = Panic msg err ->
  e_Pkg (SetCover_at_panic fuel e internalImagePath internalCSSPath)
  = Pkg_SetCover (e_Pkg e) (Go.Base internalImagePath).
Proof.
  intros H. apply SetCover_at_panic_eq in H as [_ ->].
  pose proof (removeCover_frame e) as Fr. injection Fr as _ _ _ _ _ _ -> _.
  reflexivity.
Qed.

Lemma step_Pkg_calls (e e' : Epub) :
  step e e' -> e_Pkg e' = e_Pkg e \/ exists c, e_Pkg e' = call (e_Pkg e) c.
Proof.
  intros [e0 e1 Hr | fuel e0 i c msg err Hp].
  - now apply returns_Pkg_calls.
  - right. exists (CallSetCover (Go.Base i)).
    now apply (SetCover_at_panic_Pkg fuel e0 i c msg err).
Qed.

(** X13: the package document of every publication a program can build
    is a new package document after a sequence of calls of the methods of
    [Pkg], and the methods of [Epub] change it through four of them only.
    [NewEpub] makes it from a new package document by [AddIdentifier],
    [SetLang] and [SetTitle]; [AddCSS], [AddFont], [AddImage], [AddVideo]
    and [AddSection] leave it as it is; [SetCover] changes it by
    [Pkg.SetCover] with the base name of the image path, whether it
    returns or panics; [SetTitle] changes it by [Pkg.SetTitle]. *)
Theorem reachable_Pkg :
  (forall uuid4 title,
      e_Pkg (NewEpub uuid4 title)
      = calls [ CallAddIdentifier (urnUUIDPrefix +:+ uuid4) SchemeXSDString
                  PropertyIdentifierTypeUUID;
                CallSetLang defaultEpubLang; CallSetTitle title ] NewPkg)
  /\ (forall e source internalFilename p err e',
         AddCSS e source internalFilename = (p, err, e')
         \/ AddFont e source internalFilename = (p, err, e')
         \/ AddImage e source internalFilename = (p, err, e')
         \/ AddVideo e source internalFilename = (p, err, e') ->
         e_Pkg e' = e_Pkg e)
  /\ (forall fuel e body sectionTitle internalFilename internalCSSPath p err e',
         AddSection fuel e body sectionTitle internalFilename internalCSSPath
         = Some (p, err, e') ->
         e_Pkg e' = e_Pkg e)
  /\ (forall fuel e internalImagePath internalCSSPath e',
         SetCover fuel e internalImagePath internalCSSPath = Done e' ->
         e_Pkg e' = call (e_Pkg e) (CallSetCover (Go.Base internalImagePath)))
  /\ (forall fuel e internalImagePath internalCSSPath msg err,
         SetCover fuel e internalImagePath internalCSSPath = Panic msg err ->
         e_Pkg (SetCover_at_panic fuel e internalImagePath internalCSSPath)
         = call (e_Pkg e) (CallSetCover (Go.Base internalImagePath)))
  /\ (forall e title,
         e_Pkg (SetTitle e title) = call (e_Pkg e) (CallSetTitle title))
  /\ (forall e, reachable e -> exists cs, e_Pkg e = calls cs NewPkg).
Proof.
  assert (Hnew : forall uuid4 title,
             e_Pkg (NewEpub uuid4 title)
             = calls [ CallAddIdentifier (urnUUIDPrefix +:+ uuid4) SchemeXSDString
                         PropertyIdentifierTypeUUID;
                       CallSetLang defaultEpubLang; CallSetTitle title ] NewPkg)
    by reflexivity.
  split; [exact Hnew |].
  split.
  { intros e s f p err e' H.
    assert (Hm : forall q o m, (q, o, m) = (p, err, e') -> m = e')
      by (now intros q o m [= _ _ ->]).
    destruct H as [H | [H | [H | H]]]; revert H;
      unfold AddCSS, addCSS, AddFont, AddImage, AddVideo;
      destruct (addMedia _ _ _ _ _) as [[? ?] ?]; intros [= _ _ <-];
      now destruct e. }
  split.
  { intros fuel e b t f c p err e' H.
    apply addSection_Some in H as [(-> & _) | (x & _ & _ & _ & ->)];
      [reflexivity | now destruct e]. }
  split.
  { intros fuel e i c e' H. now apply SetCover_unchanged in H as [_ ->]. }
  split.
  { intros fuel e i c msg err H.
    now apply (SetCover_at_panic_Pkg fuel e i c msg err). }
  split.
  { intros e title. now destruct e. }
  intros e. induction 1 as [uuid4 title | e e' Hr [cs IH] Hstep].
  - eexists. apply Hnew.
  - destruct (step_Pkg_calls e e' Hstep) as [-> | [c ->]]; [now exists cs |].
    exists (cs ++ [ c ]). now rewrite calls_app, IH.
Qed.

(** ** When [SetCover] completes and when it panics *)

Lemma removeCover_css_after (e : Epub) (image : string) :
  let er := removeCover e in
  let c := cover er in
  css (set_Pkg (Pkg_SetCover (e_Pkg er) (Go.Base image))
         (set_cover (mkEpubCover (cssFilename c) (cssTempFile c) (Go.Base image)
                       (xhtmlFilename c)) er))
  = css er.
Proof. cbv zeta. now destruct (removeCover e). Qed.

(** X14: with no stylesheet given, [SetCover] panics with the message
    [DEBUG] when the check turns the data URL of the default stylesheet
    down. *)
Theorem SetCover_panics_on_retrieval (fuel : nat) (e : Epub)
    (internalImagePath : string) (err : fetchError) :
  checkMedia (EncodeBytes defaultCoverCSSContent) = Some err ->
  SetCover fuel e internalImagePath ""
  = Panic "DEBUG"
      (Some (FileRetrievalError (EncodeBytes defaultCoverCSSContent) err)).
Proof.
  intros H. unfold SetCover, coverCSS. cbn [Go.is_empty].
  unfold addCSS at 1, addMedia at 1. rewrite H. reflexivity.
Qed.

(** X15: with no stylesheet given and a data URL that passes the check,
    [SetCover] panics when, once the previous cover is torn down, both
    [cover.css] and the name generated from the number of stylesheets are
    keys of the stylesheet map. *)
Theorem SetCover_panics_on_taken_names (fuel : nat) (e : Epub)
    (internalImagePath : string) :
  let styles := css (removeCover e) in
  let generated :=
    Go.Sprintf cssFileFormat
      [ Go.Int (Go.wrapInt (Z.of_nat (size styles) + 1)); Go.Str ".css" ] in
  checkMedia (EncodeBytes defaultCoverCSSContent) = None ->
  is_Some (styles !! defaultCoverCSSFilename) ->
  is_Some (styles !! generated) ->
  SetCover fuel e internalImagePath ""
  = Panic "Error adding default cover CSS file"
      (Some (FilenameAlreadyUsedError generated)).
Proof.
  intros styles generated Hc H1 H2. unfold SetCover, coverCSS.
  cbn [Go.is_empty].
  pose proof (removeCover_css_after e internalImagePath) as Hcss.
  cbv zeta in Hcss. fold styles in Hcss.
  set (ei := set_Pkg _ (set_cover _ (removeCover e))) in *.
  set (tmp := EncodeBytes defaultCoverCSSContent) in *.
  set (et := set_cover _ ei).
  assert (Het : css et = styles) by (unfold et; now destruct ei).
  assert (E1 : addCSS et tmp defaultCoverCSSFilename
               = ("", Some (FilenameAlreadyUsedError defaultCoverCSSFilename), et)).
  { unfold addCSS, addMedia. rewrite Hc. cbn [Go.is_empty defaultCoverCSSFilename].
    rewrite Het, bool_decide_eq_true_2 by exact H1.
    f_equal; rewrite <- Het; apply set_css_same. }
  rewrite E1. cbn [isFilenameAlreadyUsed]. rewrite Het. fold generated.
  assert (E2 : addCSS et tmp generated
               = ("", Some (FilenameAlreadyUsedError generated), et)).
  { unfold addCSS, addMedia. rewrite Hc.
    assert (Hg : Go.is_empty generated = false)
      by (pose proof (single_element_css (Go.wrapInt (Z.of_nat (size styles) + 1)))
            as Hs; now apply single_element_inv in Hs).
    rewrite Hg, Het, bool_decide_eq_true_2 by exact H2.
    f_equal; rewrite <- Het; apply set_css_same. }
  rewrite E2. reflexivity.
Qed.

Lemma generateSectionFilename_total (ss : list epubSection) (fuel : nat) :
  (List.length ss < fuel)%nat -> Z.of_nat (List.length ss) < Go.maxInt ->
  exists name, generateSectionFilename fuel ss 1 = Some name.
Proof.
  intros Hfuel Hmax.
  destruct (first_free_index ss (S (List.length ss)))
    as [Hall | (k & Hk & Hfree & Hbelow)].
  - exfalso. now apply (not_all_used ss).
  - eexists.
    apply (generateSectionFilename_first_free ss fuel 1 k); try assumption; lia.
Qed.

(** X17: [SetCover] completes when the fuel exceeds the number of
    sections (fewer than [maxInt]) and either a stylesheet is given, or
    the data URL of the default stylesheet passes the check and one of
    [cover.css] and the generated name is free once the previous cover is
    torn down. *)
Theorem SetCover_completes (fuel : nat) (e : Epub)
    (internalImagePath internalCSSPath : string) :
  let styles := css (removeCover e) in
  let generated :=
    Go.Sprintf cssFileFormat
      [ Go.Int (Go.wrapInt (Z.of_nat (size styles) + 1)); Go.Str ".css" ] in
  (List.length (sections e) < fuel)%nat ->
  Z.of_nat (List.length (sections e)) < Go.maxInt ->
  (internalCSSPath <> ""
   \/ (checkMedia (EncodeBytes defaultCoverCSSContent) = None
       /\ (styles !! defaultCoverCSSFilename = None
           \/ styles !! generated = None))) ->
  exists e', SetCover fuel e internalImagePath internalCSSPath = Done e'.
Proof.
  intros styles generated Hfuel Hmax Hcss. unfold SetCover.
  pose proof (removeCover_css_after e internalImagePath) as Hc.
  cbv zeta in Hc. fold styles in Hc.
  assert (Hlen : (List.length (sections (removeCover e))
                  <= List.length (sections e))%nat).
  { pose proof (sublist_length _ _ (removeCover_sections_sublist e)) as Hl.
    now rewrite !length_fmap in Hl. }
  set (er := removeCover e) in *.
  set (ei := set_Pkg _ (set_cover _ er)) in *.
  assert (Hsi : sections ei = sections er) by (unfold ei; now destruct er).
  clearbody ei.
  assert (Hd : exists path ec,
             coverCSS ei internalCSSPath = Done (path, ec)
             /\ sections ec = sections ei).
  { unfold coverCSS. destruct internalCSSPath as [|c0 p0]; cbn [Go.is_empty].
    2:{ eauto. }
    destruct Hcss as [Hne | (Hchk & Hfree)]; [congruence |].
    set (tmp := EncodeBytes defaultCoverCSSContent) in *.
    set (et := set_cover _ ei).
    assert (Het : css et = styles /\ sections et = sections ei)
      by (unfold et; now destruct ei).
    destruct Het as [Het Hst].
    destruct (styles !! defaultCoverCSSFilename) as [v |] eqn:E0.
    - destruct Hfree as [Hfree | Hfree]; [discriminate |].
      assert (E1 : addCSS et tmp defaultCoverCSSFilename
                   = ("", Some (FilenameAlreadyUsedError defaultCoverCSSFilename),
                      et)).
      { unfold addCSS, addMedia. rewrite Hchk.
        cbn [Go.is_empty defaultCoverCSSFilename].
        rewrite Het, bool_decide_eq_true_2 by (rewrite E0; eauto).
        f_equal; rewrite <- Het; apply set_css_same. }
      rewrite E1. cbn [isFilenameAlreadyUsed]. rewrite Het. fold generated.
      assert (Hg : Go.is_empty generated = false)
        by (pose proof (single_element_css
                          (Go.wrapInt (Z.of_nat (size styles) + 1))) as Hs;
            now apply single_element_inv in Hs).
      unfold addCSS, addMedia. rewrite Hchk, Hg, Het.
      rewrite bool_decide_eq_false_2 by (rewrite Hfree; now intros [? ?]).
      cbn [isFilenameAlreadyUsed]. eexists _, _. split; [reflexivity |].
      now destruct et.
    - unfold addCSS, addMedia. rewrite Hchk.
      cbn [Go.is_empty defaultCoverCSSFilename]. rewrite Het.
      rewrite bool_decide_eq_false_2 by (rewrite E0; now intros [? ?]).
      cbn [isFilenameAlreadyUsed]. eexists _, _. split; [reflexivity |].
      now destruct et. }
  destruct Hd as (path & ec & -> & Hse).
  set (eb := set_cover _ ec).
  assert (Hsb : sections eb = sections er)
    by (unfold eb; destruct ec; cbn in *; congruence).
  clearbody eb.
  unfold addSection at 1. cbn [Go.is_empty defaultCoverXhtmlFilename].
  destruct (section_used (sections eb) defaultCoverXhtmlFilename);
    cbn [isFilenameAlreadyUsed].
  - unfold addSection. cbn [Go.is_empty].
    destruct (generateSectionFilename_total (sections eb) fuel) as [name ->];
      [rewrite Hsb; lia | rewrite Hsb; lia |].
    cbn [isFilenameAlreadyUsed]. eauto.
  - eauto.
Qed.

(** X18: an image added under a filename that is a single path element,
    then made the cover by the path [AddImage] returned: the cover records
    that filename, and the image is still registered under it, provided the
    cover being replaced, if there is one, did not record the same
    filename. *)
Theorem AddImage_then_SetCover (fuel : nat) (e e1 e2 : Epub)
    (source name path internalCSSPath : string) :
  single_element name = true ->
  AddImage e source name = (path, None, e1) ->
  (xhtmlFilename (cover e) = "" \/ imageFilename (cover e) <> name) ->
  SetCover fuel e1 path internalCSSPath = Done e2 ->
  path = "../images/" +:+ name
  /\ imageFilename (cover e2) = name
  /\ images e2 !! name = Some source.
Proof.
  intros Hs Hadd Hold Hset.
  pose proof (single_element_inv _ Hs) as (Hne & _).
  apply is_empty_false in Hne.
  revert Hadd. unfold AddImage.
  destruct (addMedia source name imageFileFormat ImageFolderName (images e))
    as [[p o] m] eqn:E.
  intros [= -> -> <-].
  apply addMedia_added in E as (name' & Hname & Hfree & -> & ->).
  rewrite (Hname Hne) in *. clear Hname name'.
  split; [now apply Join_elements |].
  apply SetCover_Done in Hset as (_ & _ & _ & _ & _ & Hi & Hn & _).
  rewrite Base_Join_elements in Hn by (assumption || reflexivity).
  split; [exact Hn |]. rewrite Hi.
  unfold removeCover. destruct e as [cv ? ? im ? ? ? ? ? ? ?]. cbn in *.
  destruct (Go.is_empty (xhtmlFilename cv)) eqn:Ex; cbn.
  - apply lookup_insert_eq.
  - destruct Hold as [Hx | Hx]; [rewrite Hx in Ex; discriminate |].
    rewrite lookup_delete_ne by assumption. apply lookup_insert_eq.
Qed.

(** X19: a call of [addSection] that returns either reports
    [FilenameAlreadyUsedError] for the filename asked for, which a section
    already has, and leaves the publication as it was; or it appends one
    section, under a filename that is not empty and that no section had,
    and changes nothing else. *)
Theorem addSection_outcome (fuel : nat) (e e' : Epub)
    (body sectionTitle internalFilename internalCSSPath p : string)
    (err : option error) :
  addSection fuel e body sectionTitle internalFilename internalCSSPath
  = Some (p, err, e') ->
  (err = Some (FilenameAlreadyUsedError internalFilename)
   /\ (internalFilename ∈ filename <$> sections e)
   /\ p = "" /\ e' = e)
  \/ (err = None
      /\ p <> "" /\ (p ∉ filename <$> sections e)
      /\ (internalFilename <> "" -> p = internalFilename)
      /\ exists x,
          x_body x = body /\ x_title x = sectionTitle /\ x_css x = internalCSSPath
          /\ e' = set_sections (sections e ++ [ mkEpubSection p x ]) e).
Proof.
  unfold addSection. destruct internalFilename as [|c fn]; cbn [Go.is_empty].
  - destruct (generateSectionFilename fuel (sections e) 1) as [name |] eqn:Eg;
      [| discriminate].
    intros [= <- <- <-]. right.
    apply generateSectionFilename_Some in Eg as (Hfree & Hs).
    apply single_element_inv in Hs as (He & _).
    split; [reflexivity |]. split; [now apply is_empty_false |].
    split; [now apply section_used_elem |]. split; [congruence |].
    eexists. repeat split; now destruct internalCSSPath.
  - destruct (section_used (sections e) (String c fn)) eqn:Eu.
    + intros [= <- <- <-]. left. repeat split.
      apply list_elem_of_In. now apply section_used_In.
    + intros [= <- <- <-]. right.
      split; [reflexivity |]. split; [discriminate |].
      split; [now apply section_used_elem |]. split; [reflexivity |].
      eexists. repeat split; now destruct internalCSSPath.
Qed.

End Publication.

Arguments FilenameAlreadyUsedError {fetchError} Filename.
Arguments FileRetrievalError {fetchError} Source Err.
Arguments Done {fetchError A} a.
Arguments Panic {fetchError A} msg err.
Arguments OutOfFuel {fetchError A}.
Arguments addMedia {fetchError} checkMedia ToLower.
Arguments addCSS {fetchError} checkMedia ToLower.
Arguments AddCSS {fetchError} checkMedia ToLower.
Arguments AddFont {fetchError} checkMedia ToLower.
Arguments AddImage {fetchError} checkMedia ToLower.
Arguments AddVideo {fetchError} checkMedia ToLower.
Arguments coverCSS {fetchError} checkMedia ToLower EncodeBytes.
Arguments SetCover {fetchError} checkMedia ToLower EncodeBytes.
Arguments SetCover_at_panic {fetchError} checkMedia ToLower EncodeBytes.
Arguments reachable_new {fetchError} checkMedia ToLower EncodeBytes.
Arguments settled_new {fetchError} checkMedia ToLower EncodeBytes.

(** ** The model run on concrete inputs *)

Lemma addMedia_retrieval_failure_witness :
  addMedia (sampleCheck "missing.png") sampleToLower
    "missing.png" "pic.png" imageFileFormat ImageFolderName ∅
  = ("", Some (FileRetrievalError "missing.png" "no such file"), ∅).
Proof.
  apply (addMedia_retrieval_failure string (sampleCheck "missing.png")
           sampleToLower "missing.png" "pic.png" imageFileFormat
           ImageFolderName ∅ "no such file").
  reflexivity.
Defined.

(** C7 as first stated fails: a second add under the name [pic.png] whose
    source does not pass the check ends in [FileRetrievalError]. *)
Lemma addMedia_used_filename_counterexample :
  ~ (forall (checkMedia : string -> option string) (ToLower : string -> string)
            (source internalFilename mediaFileFormat mediaFolderName : string)
            (mediaMap : gmap string string),
        internalFilename <> "" ->
        is_Some (mediaMap !! internalFilename) ->
        addMedia checkMedia ToLower source internalFilename mediaFileFormat
          mediaFolderName mediaMap
        = ("", Some (FilenameAlreadyUsedError internalFilename), mediaMap)).
Proof.
  intros H.
  specialize (H (sampleCheck "missing.png") sampleToLower "missing.png" "pic.png"
                imageFileFormat ImageFolderName {[ "pic.png" := "first.png" ]}).
  assert (Hin : is_Some (({[ "pic.png" := "first.png" ]} : gmap string string)
                           !! "pic.png")).
  { rewrite lookup_singleton_eq. eauto. }
  specialize (H ltac:(discriminate) Hin).
  unfold addMedia in H. simpl in H. discriminate.
Qed.

Lemma addMedia_used_filename_witness :
  let m : gmap string string := {[ "pic.png" := "first.png" ]} in
  let r := addMedia (sampleCheck "missing.png") sampleToLower
             "second.png" "pic.png" imageFileFormat ImageFolderName m in
  r.2 = m
  /\ (sampleCheck "missing.png" "second.png" = None ->
      r = ("", Some (FilenameAlreadyUsedError "pic.png"), m))
  /\ (forall err, sampleCheck "missing.png" "second.png" = Some err ->
                 r = ("", Some (FileRetrievalError "second.png" err), m)).
Proof.
  apply (addMedia_used_filename string (sampleCheck "missing.png")
           sampleToLower "second.png" "pic.png" imageFileFormat
           ImageFolderName {[ "pic.png" := "first.png" ]}).
  - discriminate.
  - rewrite lookup_singleton_eq. eauto.
Defined.

(** C8 as first stated fails: the image added under the name [./pic.png]
    is registered under that name, and the path returned is
    [../images/pic.png]. *)
Lemma addMedia_success_counterexample :
  ~ (forall (checkMedia : string -> option string) (ToLower : string -> string)
            (source internalFilename path : string)
            (mediaMap mediaMap' : gmap string string),
        internalFilename <> "" ->
        addMedia checkMedia ToLower source internalFilename imageFileFormat
          ImageFolderName mediaMap
        = (path, None, mediaMap') ->
        mediaMap' !! internalFilename = Some source
        /\ path = "../" +:+ ImageFolderName +:+ "/" +:+ internalFilename).
Proof.
  intros H.
  destruct (H (sampleCheck "missing.png") sampleToLower "pic.png" "./pic.png"
              "../images/pic.png" ∅ {[ "./pic.png" := "pic.png" ]}
              ltac:(discriminate) ltac:(vm_compute; reflexivity))
    as [_ Hp].
  discriminate Hp.
Qed.

Lemma addMedia_success_witness :
  exists name,
    ("" <> "" -> name = "")
    /\ (∅ : gmap string string) !! name = None
    /\ ({[ "gopher.png" := "testdata/gopher.png" ]} : gmap string string)
       = <[ name := "testdata/gopher.png" ]> ∅
    /\ ({[ "gopher.png" := "testdata/gopher.png" ]} : gmap string string) !! name
       = Some "testdata/gopher.png"
    /\ "../images/gopher.png" = Go.Join [ ".."; ImageFolderName; name ]
    /\ (In ImageFolderName
           [ CSSFolderName; FontFolderName; ImageFolderName; VideoFolderName ] ->
        single_element name = true ->
        "../images/gopher.png" = "../" +:+ ImageFolderName +:+ "/" +:+ name).
Proof.
  apply (addMedia_success string (sampleCheck "missing.png") sampleToLower
           "testdata/gopher.png" "" imageFileFormat ImageFolderName
           "../images/gopher.png" ∅ {[ "gopher.png" := "testdata/gopher.png" ]}).
  vm_compute. reflexivity.
Defined.

Lemma addSection_generated_filename_witness :
  let e := set_sections
             [ mkEpubSection "section0001.xhtml" (newXhtml "<h1>One</h1>");
               mkEpubSection "cover.xhtml" (newXhtml "") ]
             (NewEpub "0000" "My title") in
  exists k,
    1 <= k <= Z.of_nat (List.length (sections e)) + 1
    /\ let name := Go.Sprintf sectionFileFormat [ Go.Int k ] in
       let x := setTitle (newXhtml "<h1>Two</h1>") "Two" in
       let x := if negb (Go.is_empty "") then setCSS x "" else x in
       addSection string 3 e "<h1>Two</h1>" "Two" "" ""
       = Some (name, None,
               set_sections (sections e ++ [ mkEpubSection name x ]) e)
       /\ ~ In name (map filename (sections e))
       /\ forall j, 1 <= j < k ->
            In (Go.Sprintf sectionFileFormat [ Go.Int j ])
               (map filename (sections e)).
Proof.
  intros e.
  apply (addSection_generated_filename string 3 e "<h1>Two</h1>" "Two" "").
  - simpl. lia.
  - vm_compute. reflexivity.
Defined.

(** C9: two images and a stylesheet are added, and the cover is set
    twice, to the first image and then to the second, with the same
    stylesheet both times.  The second call deletes the stylesheet of the
    first cover from the stylesheet map, and this is the stylesheet it then
    records for the new cover and links from the new cover page: one cover
    section and one cover image are left, and no stylesheet at all.  With
    images added under names with a slash, [a/x.png] and [b/y.png], and no
    stylesheet given, both images stay registered after the two calls, and
    the cover records [y.png], which is no key of the image map. *)
Theorem SetCover_twice_loses_stylesheet :
  let chk := sampleCheck "missing.png" in
  let run e image stylesheet :=
    match SetCover chk sampleToLower sampleEncodeBytes 2 e image stylesheet with
    | Done e' => e'
    | _ => e
    end in
  let r1 := AddImage chk sampleToLower (NewEpub "0000" "My title") "a.png" "" in
  let r2 := AddImage chk sampleToLower r1.2 "b.png" "" in
  let r3 := AddCSS chk sampleToLower r2.2 "my.css" "" in
  let e4 := run r3.2 "../images/a.png" "../css/my.css" in
  let e5 := run e4 "../images/b.png" "../css/my.css" in
  let s1 := AddImage chk sampleToLower (NewEpub "0000" "My title")
              "x.png" "a/x.png" in
  let s2 := AddImage chk sampleToLower s1.2 "y.png" "b/y.png" in
  let f3 := run s2.2 "../images/a/x.png" "" in
  let f4 := run f3 "../images/b/y.png" "" in
  (r1.1 = ("../images/a.png", None)
   /\ r2.1 = ("../images/b.png", None)
   /\ r3.1 = ("../css/my.css", None)
   /\ SetCover chk sampleToLower sampleEncodeBytes 2 r3.2
        "../images/a.png" "../css/my.css" = Done e4
   /\ SetCover chk sampleToLower sampleEncodeBytes 2 e4
        "../images/b.png" "../css/my.css" = Done e5
   /\ css e4 = {[ "my.css" := "my.css" ]}
   /\ filename <$> sections e5 = [ "cover.xhtml" ]
   /\ images e5 = {[ "b.png" := "b.png" ]}
   /\ imageFilename (cover e5) = "b.png"
   /\ cssFilename (cover e5) = "my.css"
   /\ (x_css ∘ s_xhtml) <$> sections e5 = [ "../css/my.css" ]
   /\ css e5 !! cssFilename (cover e5) = None
   /\ css e5 = ∅)
  /\ (s1.1 = ("../images/a/x.png", None)
      /\ s2.1 = ("../images/b/y.png", None)
      /\ SetCover chk sampleToLower sampleEncodeBytes 2 s2.2
           "../images/a/x.png" "" = Done f3
      /\ SetCover chk sampleToLower sampleEncodeBytes 2 f3
           "../images/b/y.png" "" = Done f4
      /\ imageFilename (cover f3) = "x.png"
      /\ images f4 = <[ "b/y.png" := "y.png" ]> {[ "a/x.png" := "x.png" ]}
      /\ imageFilename (cover f4) = "y.png"
      /\ images f4 !! imageFilename (cover f4) = None).
Proof. vm_compute. repeat split. Qed.

Lemma SetCover_twice_witness :
  let chk := sampleCheck "missing.png" in
  let r1 := AddImage chk sampleToLower (NewEpub "0000" "My title") "a.png" "" in
  let r2 := AddImage chk sampleToLower r1.2 "b.png" "" in
  let e0 := r2.2 in
  let run e image :=
    match SetCover chk sampleToLower sampleEncodeBytes 2 e image "" with
    | Done e' => e'
    | _ => e
    end in
  let e1 := run e0 "../images/a.png" in
  let e2 := run e1 "../images/b.png" in
  let er := removeCover e0 in
  let coverName := xhtmlFilename (cover e2) in
  (exists x,
      sections e2 = sections er ++ [ mkEpubSection coverName x ]
      /\ x_body x = Go.Sprintf defaultCoverBody [ Go.Str "../images/b.png" ]
      /\ List.filter (fun s => String.eqb (filename s) coverName) (sections e2)
         = [ mkEpubSection coverName x ])
  /\ section_used (sections er) coverName = false
  /\ images e2 = delete (Go.Base "../images/a.png") (images er)
  /\ imageFilename (cover e2) = Go.Base "../images/b.png"
  /\ is_Some (images e2 !! imageFilename (cover e2))
  /\ images e2 !! imageFilename (cover e1) = None
  /\ css e2
     = (if Go.is_empty ""
        then <[ cssFilename (cover e2) := sampleEncodeBytes defaultCoverCSSContent ]>
               (delete (cssFilename (cover e1)) (css e1))
        else delete (cssFilename (cover e1)) (css e1))
  /\ is_Some (css e2 !! cssFilename (cover e2)).
Proof.
  intros chk r1 r2 e0 run e1 e2.
  apply (SetCover_twice string chk sampleToLower sampleEncodeBytes 2 e0 e1 e2
           "../images/a.png" "../images/b.png" "" "").
  - vm_compute. eexists. reflexivity.
  - vm_compute. discriminate.
  - left. reflexivity.
  - vm_compute. reflexivity.
  - vm_compute. reflexivity.
Defined.

(** C2: three images added with no filename given.  The first takes the
    base name of its source, [x.png]; the second takes [image0003.png]
    from its source; the third finds [x.png] taken, and the name generated
    from the size of the map, [image0003.png], is taken too: the call
    fails with [FilenameAlreadyUsedError]. *)
Theorem AddImage_generated_name_collides :
  let add := AddImage (sampleCheck "missing.png") sampleToLower in
  let r1 := add (NewEpub "0000" "My title") "a/x.png" "" in
  let r2 := add r1.2 "b/image0003.png" "" in
  let r3 := add r2.2 "c/x.png" "" in
  r1.1 = ("../images/x.png", None)
  /\ r2.1 = ("../images/image0003.png", None)
  /\ r3 = ("", Some (FilenameAlreadyUsedError "image0003.png"), r2.2).
Proof. vm_compute. repeat split. Qed.

(** ** More runs on concrete inputs *)

Lemma addMedia_generated_name_free_witness :
  let m : gmap string string := {[ "gopher.png" := "first.png" ]} in
  exists name,
    (name = Go.Base "dir/gopher.png"
     \/ name = Go.Sprintf imageFileFormat
                 [ Go.Int (Go.wrapInt (Z.of_nat (size m) + 1));
                   Go.Str (sampleToLower (Go.Ext "dir/gopher.png")) ])
    /\ addMedia (sampleCheck "missing.png") sampleToLower "dir/gopher.png" ""
         imageFileFormat ImageFolderName m
       = (Go.Join [ ".."; ImageFolderName; name ], None,
          <[ name := "dir/gopher.png" ]> m).
Proof.
  intros m.
  apply (addMedia_generated_name_free string (sampleCheck "missing.png")
           sampleToLower "dir/gopher.png" imageFileFormat ImageFolderName m).
  - reflexivity.
  - vm_compute. reflexivity.
Defined.

Lemma addMedia_generated_failure_witness :
  let m : gmap string string :=
    <[ "image0003.png" := "b/image0003.png" ]> {[ "x.png" := "a/x.png" ]} in
  "image0003.png"
  = Go.Sprintf imageFileFormat
      [ Go.Int (Go.wrapInt (Z.of_nat (size m) + 1));
        Go.Str (sampleToLower (Go.Ext "c/x.png")) ]
  /\ is_Some (m !! "image0003.png")
  /\ ((255 <? Z.of_nat (String.length (Go.Base "c/x.png")))
      || negb (Go.ValidPath (Go.Base "c/x.png"))
      || bool_decide (is_Some (m !! Go.Base "c/x.png"))) = true
  /\ m = m.
Proof.
  intros m.
  apply (addMedia_generated_failure string (sampleCheck "missing.png")
           sampleToLower "c/x.png" imageFileFormat ImageFolderName ""
           "image0003.png" m m).
  vm_compute. reflexivity.
Defined.

Lemma reachable_sections_witness :
  let chk := sampleCheck "missing.png" in
  let e0 := NewEpub "0000" "My title" in
  let e1 := (AddImage chk sampleToLower e0 "a.png" "").2 in
  let e2 := match SetCover chk sampleToLower sampleEncodeBytes 1 e1
                    "../images/a.png" "../css/my.css" with
            | Done e' => e'
            | _ => e1
            end in
  let e3 := (AddCSS chk sampleToLower e2 "a.css" "cover.css").2 in
  let e4 := (AddCSS chk sampleToLower e3 "b.css" "css0003.css").2 in
  let e5 := SetCover_at_panic chk sampleToLower sampleEncodeBytes 1 e4
              "../images/b.png" "" in
  NoDup (filename <$> sections e5).
Proof.
  intros chk e0 e1 e2 e3 e4 e5.
  apply (reachable_sections string chk sampleToLower sampleEncodeBytes e5).
  apply (reachable_step string chk sampleToLower sampleEncodeBytes e4 e5).
  - apply (reachable_step string chk sampleToLower sampleEncodeBytes e3 e4).
    + apply (reachable_step string chk sampleToLower sampleEncodeBytes e2 e3).
      * apply (reachable_step string chk sampleToLower sampleEncodeBytes e1 e2).
        -- apply (reachable_step string chk sampleToLower sampleEncodeBytes e0 e1).
           ++ apply reachable_new.
           ++ apply step_returns.
              apply (returns_AddImage string chk sampleToLower sampleEncodeBytes
                       e0 "a.png" "" "../images/a.png" None e1).
              vm_compute. reflexivity.
        -- apply step_returns.
           apply (returns_SetCover string chk sampleToLower sampleEncodeBytes 1
                    e1 "../images/a.png" "../css/my.css" e2).
           vm_compute. reflexivity.
      * apply step_returns.
        apply (returns_AddCSS string chk sampleToLower sampleEncodeBytes
                 e2 "a.css" "cover.css" "../css/cover.css" None e3).
        vm_compute. reflexivity.
    + apply step_returns.
      apply (returns_AddCSS string chk sampleToLower sampleEncodeBytes
               e3 "b.css" "css0003.css" "../css/css0003.css" None e4).
      vm_compute. reflexivity.
  - apply (step_SetCover_panics string chk sampleToLower sampleEncodeBytes 1 e4
             "../images/b.png" "" "Error adding default cover CSS file"
             (Some (FilenameAlreadyUsedError "css0003.css"))).
    vm_compute. reflexivity.
Defined.

Lemma settled_cover_page_witness :
  let chk := sampleCheck "missing.png" in
  let e0 := NewEpub "0000" "My title" in
  let e1 := match SetCover chk sampleToLower sampleEncodeBytes 1 e0
                    "../images/a.png" "" with
            | Done e' => e'
            | _ => e0
            end in
  let e2 := match AddSection string 2 e1 "<h1>One</h1>" "One" "" "" with
            | Some r => r.2
            | None => e1
            end in
  reachable string chk sampleToLower sampleEncodeBytes e2
  /\ (xhtmlFilename (cover e2) <> "" ->
      xhtmlFilename (cover e2) ∈ filename <$> sections e2).
Proof.
  intros chk e0 e1 e2.
  apply (settled_cover_page string chk sampleToLower sampleEncodeBytes e2).
  apply (settled_returns string chk sampleToLower sampleEncodeBytes e1 e2).
  - apply (settled_returns string chk sampleToLower sampleEncodeBytes e0 e1).
    + apply settled_new.
    + apply (returns_SetCover string chk sampleToLower sampleEncodeBytes 1 e0
               "../images/a.png" "" e1).
      vm_compute. reflexivity.
  - apply (returns_AddSection string chk sampleToLower sampleEncodeBytes 2 e1
             "<h1>One</h1>" "One" "" "" "section0001.xhtml" None e2).
    vm_compute. reflexivity.
Defined.

Lemma SetCover_panic_state_witness :
  let chk := sampleCheck "missing.png" in
  let e0 := NewEpub "0000" "My title" in
  let e1 := (AddImage chk sampleToLower e0 "a.png" "").2 in
  let e2 := match SetCover chk sampleToLower sampleEncodeBytes 1 e1
                    "../images/a.png" "../css/my.css" with
            | Done e' => e'
            | _ => e1
            end in
  let e3 := (AddCSS chk sampleToLower e2 "a.css" "cover.css").2 in
  let e := (AddCSS chk sampleToLower e3 "b.css" "css0003.css").2 in
  let e' := SetCover_at_panic chk sampleToLower sampleEncodeBytes 1 e
              "../images/b.png" "" in
  SetCover chk sampleToLower sampleEncodeBytes 1 e "../images/b.png" ""
  = Panic "Error adding default cover CSS file"
      (Some (FilenameAlreadyUsedError "css0003.css"))
  /\ (sections e', images e', css e')
     = (sections (removeCover e), images (removeCover e), css (removeCover e))
  /\ cover e'
     = mkEpubCover (cssFilename (cover e))
         (sampleEncodeBytes defaultCoverCSSContent)
         (Go.Base "../images/b.png") (xhtmlFilename (cover e))
  /\ e_Pkg e' = Pkg_SetCover (e_Pkg e) (Go.Base "../images/b.png")
  /\ (fonts e', videos e', lang e', desc e', ppd e', e_toc e')
     = (fonts e, videos e, lang e, desc e, ppd e, e_toc e)
  /\ filename <$> sections e = [ "cover.xhtml" ]
  /\ xhtmlFilename (cover e') = "cover.xhtml"
  /\ sections e' = []
  /\ (xhtmlFilename (cover e') ∉ filename <$> sections e').
Proof.
  intros chk e0 e1 e2 e3 e e'.
  assert (Hp : SetCover chk sampleToLower sampleEncodeBytes 1 e
                 "../images/b.png" ""
               = Panic "Error adding default cover CSS file"
                   (Some (FilenameAlreadyUsedError "css0003.css")))
    by (vm_compute; reflexivity).
  destruct (SetCover_panic_state string chk sampleToLower sampleEncodeBytes 1 e
              "../images/b.png" "" _ _ Hp)
    as (_ & H1 & H2 & H3 & H4 & H5).
  split; [exact Hp |].
  split; [exact H1 |]. split; [exact H2 |]. split; [exact H3 |].
  split; [exact H4 |].
  split; [vm_compute; reflexivity |].
  split; [vm_compute; reflexivity |].
  split; [vm_compute; reflexivity |].
  apply H5.
  - change (filename <$> sections e) with [ "cover.xhtml" ].
    apply NoDup_singleton.
  - change (xhtmlFilename (cover e)) with "cover.xhtml". discriminate.
Defined.

Lemma reachable_Pkg_witness :
  let chk := sampleCheck "missing.png" in
  let e0 := NewEpub "0000" "My title" in
  let e1 := (AddCSS chk sampleToLower e0 "a.css" "cover.css").2 in
  let e2 := (AddCSS chk sampleToLower e1 "b.css" "css0003.css").2 in
  let e3 := SetCover_at_panic chk sampleToLower sampleEncodeBytes 1 e2
              "../images/a.png" "" in
  let e4 := match SetCover chk sampleToLower sampleEncodeBytes 1 e3
                    "../images/b.png" "../css/cover.css" with
            | Done e' => e'
            | _ => e3
            end in
  e_Pkg e2 = e_Pkg e0
  /\ e_Pkg e3 = call (e_Pkg e2) (CallSetCover "a.png")
  /\ e_Pkg e4 = call (e_Pkg e3) (CallSetCover "b.png")
  /\ exists cs, e_Pkg e4 = calls cs NewPkg.
Proof.
  intros chk e0 e1 e2 e3 e4.
  destruct (reachable_Pkg string chk sampleToLower sampleEncodeBytes)
    as (_ & Hadd & _ & Hdone & Hpanic & _ & Hreach).
  assert (Hp : SetCover chk sampleToLower sampleEncodeBytes 1 e2
                 "../images/a.png" ""
               = Panic "Error adding default cover CSS file"
                   (Some (FilenameAlreadyUsedError "css0003.css")))
    by (vm_compute; reflexivity).
  assert (Hd : SetCover chk sampleToLower sampleEncodeBytes 1 e3
                 "../images/b.png" "../css/cover.css" = Done e4)
    by (vm_compute; reflexivity).
  assert (H1 : AddCSS chk sampleToLower e0 "a.css" "cover.css"
               = ("../css/cover.css", None, e1)) by (vm_compute; reflexivity).
  assert (H2 : AddCSS chk sampleToLower e1 "b.css" "css0003.css"
               = ("../css/css0003.css", None, e2)) by (vm_compute; reflexivity).
  split.
  { rewrite (Hadd e1 "b.css" "css0003.css" _ _ e2 (or_introl H2)).
    exact (Hadd e0 "a.css" "cover.css" _ _ e1 (or_introl H1)). }
  split; [exact (Hpanic 1%nat e2 "../images/a.png" "" _ _ Hp) |].
  split; [exact (Hdone 1%nat e3 "../images/b.png" "../css/cover.css" e4 Hd) |].
  apply Hreach.
  apply (reachable_step string chk sampleToLower sampleEncodeBytes e3 e4).
  - apply (reachable_step string chk sampleToLower sampleEncodeBytes e2 e3).
    + apply (reachable_step string chk sampleToLower sampleEncodeBytes e1 e2).
      * apply (reachable_step string chk sampleToLower sampleEncodeBytes e0 e1).
        -- apply reachable_new.
        -- apply step_returns.
           exact (returns_AddCSS string chk sampleToLower sampleEncodeBytes
                    e0 "a.css" "cover.css" _ _ e1 H1).
      * apply step_returns.
        exact (returns_AddCSS string chk sampleToLower sampleEncodeBytes
                 e1 "b.css" "css0003.css" _ _ e2 H2).
    + exact (step_SetCover_panics string chk sampleToLower sampleEncodeBytes
               1 e2 "../images/a.png" "" _ _ Hp).
  - apply step_returns.
    exact (returns_SetCover string chk sampleToLower sampleEncodeBytes 1 e3
             "../images/b.png" "../css/cover.css" e4 Hd).
Defined.

Lemma SetCover_panics_on_retrieval_witness :
  let url := sampleEncodeBytes defaultCoverCSSContent in
  SetCover (sampleCheck url) sampleToLower sampleEncodeBytes 1
    (NewEpub "0000" "My title") "../images/a.png" ""
  = Panic "DEBUG" (Some (FileRetrievalError url "no such file")).
Proof.
  intros url.
  apply (SetCover_panics_on_retrieval string (sampleCheck url) sampleToLower
           sampleEncodeBytes 1 (NewEpub "0000" "My title") "../images/a.png"
           "no such file").
  vm_compute. reflexivity.
Defined.

Lemma SetCover_panics_on_taken_names_witness :
  let chk := sampleCheck "missing.png" in
  let e1 := (AddCSS chk sampleToLower (NewEpub "0000" "My title")
               "a.css" "cover.css").2 in
  let e2 := (AddCSS chk sampleToLower e1 "b.css" "css0003.css").2 in
  SetCover chk sampleToLower sampleEncodeBytes 1 e2 "../images/a.png" ""
  = Panic "Error adding default cover CSS file"
      (Some (FilenameAlreadyUsedError
               (Go.Sprintf cssFileFormat
                  [ Go.Int (Go.wrapInt (Z.of_nat (size (css (removeCover e2))) + 1));
                    Go.Str ".css" ]))).
Proof.
  intros chk e1 e2.
  apply (SetCover_panics_on_taken_names string chk sampleToLower
           sampleEncodeBytes 1 e2 "../images/a.png").
  - reflexivity.
  - vm_compute. eexists. reflexivity.
  - vm_compute. eexists. reflexivity.
Defined.

Lemma SetCover_frame_witness :
  let chk := sampleCheck "missing.png" in
  let e := (AddFont chk sampleToLower (NewEpub "0000" "My title")
              "font.ttf" "").2 in
  let e' := match SetCover chk sampleToLower sampleEncodeBytes 1 e
                    "../images/a.png" "" with
            | Done e' => e'
            | _ => e
            end in
  (fonts e', videos e', lang e', desc e', ppd e', e_toc e')
  = (fonts e, videos e, lang e, desc e, ppd e, e_toc e)
  /\ e_Pkg e' = Pkg_SetCover (e_Pkg e) (Go.Base "../images/a.png")
  /\ mkPkgMeta "" "" "" "" "" "cover" (Go.Base "../images/a.png")
     ∈ Meta (Metadata (xml (e_Pkg e'))).
Proof.
  intros chk e e'.
  apply (SetCover_frame string chk sampleToLower sampleEncodeBytes 1 e e'
           "../images/a.png" "").
  vm_compute. reflexivity.
Defined.

Lemma SetCover_completes_witness :
  exists e',
    SetCover (sampleCheck "missing.png") sampleToLower sampleEncodeBytes 1
      (NewEpub "0000" "My title") "../images/a.png" ""
    = Done e'.
Proof.
  apply (SetCover_completes string (sampleCheck "missing.png") sampleToLower
           sampleEncodeBytes 1 (NewEpub "0000" "My title") "../images/a.png" "").
  - simpl. lia.
  - vm_compute. reflexivity.
  - right. split; [reflexivity |]. left. vm_compute. reflexivity.
Defined.

Lemma AddImage_then_SetCover_witness :
  let chk := sampleCheck "missing.png" in
  let e := NewEpub "0000" "My title" in
  let e1 := (AddImage chk sampleToLower e "testdata/gopher.png" "a.png").2 in
  let e2 := match SetCover chk sampleToLower sampleEncodeBytes 1 e1
                    "../images/a.png" "" with
            | Done e' => e'
            | _ => e1
            end in
  "../images/a.png" = "../images/" +:+ "a.png"
  /\ imageFilename (cover e2) = "a.png"
  /\ images e2 !! "a.png" = Some "testdata/gopher.png".
Proof.
  intros chk e e1 e2.
  apply (AddImage_then_SetCover string chk sampleToLower sampleEncodeBytes 1
           e e1 e2 "testdata/gopher.png" "a.png" "../images/a.png" "").
  - reflexivity.
  - vm_compute. reflexivity.
  - left. reflexivity.
  - vm_compute. reflexivity.
Defined.

Lemma addSection_outcome_witness :
  let e := NewEpub "0000" "My title" in
  let e' := set_sections
              [ mkEpubSection "section0001.xhtml"
                  (mkXhtml "<h1>One</h1>" "One" "") ] e in
  (None = Some (FilenameAlreadyUsedError (fetchError := string) "")
   /\ ("" ∈ filename <$> sections e)
   /\ "section0001.xhtml" = "" /\ e' = e)
  \/ (None (A := error string) = None
      /\ "section0001.xhtml" <> ""
      /\ ("section0001.xhtml" ∉ filename <$> sections e)
      /\ ("" <> "" -> "section0001.xhtml" = "")
      /\ exists x,
          x_body x = "<h1>One</h1>" /\ x_title x = "One" /\ x_css x = ""
          /\ e' = set_sections
                    (sections e ++ [ mkEpubSection "section0001.xhtml" x ]) e).
Proof.
  intros e e'.
  apply (addSection_outcome string 1 e e' "<h1>One</h1>" "One" "" ""
           "section0001.xhtml" None).
  vm_compute. reflexivity.
Defined.
